(** * ffchapter: chapter-encode job orchestrator

    A shallow embedding of [ffchapter.py].  The script has three modes
    (dispatch, status, finalize); every function of the script is a
    definition of the same name below.  The file system, the standard
    streams and the launched processes are an explicit [world]; Python's
    exceptions and [exit] are the [result] of a computation; everything
    outside the script (ffprobe, ffmpeg, the json module, the clock, the
    terminal, glob's matching of a directory pattern) is a field of an
    [env] record the functions are given.

    Python [float]s are idealised as exact rationals ([Q]): rounding,
    infinities and NaN are outside the model.  A [str] is the string of
    its UTF-8 bytes, and the locale's encoding, in which text files are
    read, is taken to be UTF-8. *)

From Stdlib Require Import String Ascii List Bool Arith ZArith QArith Lia.
From Stdlib Require Import Permutation Sorted DecimalString OrderedTypeEx.
Import ListNotations.

Set Warnings "-register-all".

Local Open Scope string_scope.
Local Open Scope list_scope.

(** ** Python strings *)

Module PyStr.

(** [drop n s]: the slice [s[n:]]. *)
Fixpoint drop (n : nat) (s : string) : string :=
  match n, s with
  | O, _ => s
  | S _, EmptyString => EmptyString
  | S k, String _ s' => drop k s'
  end.

(** [str.partition(sep)] for a non-empty separator: the text before the
    first occurrence of [sep] and the text after it, or [None] when
    [sep] does not occur. *)
Fixpoint partition (sep s : string) : option (string * string) :=
  if prefix sep s then Some (EmptyString, drop (String.length sep) s)
  else match s with
       | EmptyString => None
       | String c s' =>
           match partition sep s' with
           | Some (a, b) => Some (String c a, b)
           | None => None
           end
       end.

Fixpoint split_fuel (fuel : nat) (sep s : string) : list string :=
  match fuel with
  | O => [s]
  | S k =>
      match partition sep s with
      | None => [s]
      | Some (a, b) => a :: split_fuel k sep b
      end
  end.

(** [s.split(sep)] for a non-empty separator.  Every step consumes at
    least one character, so [length s] steps are enough. *)
Definition split (sep s : string) : list string :=
  split_fuel (S (String.length s)) sep s.

(** [s.replace(old, new)] for a one-character [old]. *)
Fixpoint replace (old : ascii) (new : string) (s : string) : string :=
  match s with
  | EmptyString => EmptyString
  | String c s' =>
      if Ascii.eqb c old then new ++ replace old new s'
      else String c (replace old new s')
  end.

(** [c.isspace()] on the ASCII range: space, \t, \n, \v, \f, \r and the
    separators 0x1c-0x1f. *)
Definition isspace (c : ascii) : bool :=
  let n := nat_of_ascii c in
  (n =? 32)%nat || ((9 <=? n)%nat && (n <=? 13)%nat)
  || ((28 <=? n)%nat && (n <=? 31)%nat).

Definition isdigit (c : ascii) : bool :=
  let n := nat_of_ascii c in (48 <=? n)%nat && (n <=? 57)%nat.

(** [c.lower()] on the ASCII range. *)
Definition lower_char (c : ascii) : ascii :=
  let n := nat_of_ascii c in
  if (65 <=? n)%nat && (n <=? 90)%nat then ascii_of_nat (n + 32) else c.

Fixpoint lower (s : string) : string :=
  match s with
  | EmptyString => EmptyString
  | String c s' => String (lower_char c) (lower s')
  end.

(** The whitespace [float] skips around an ASCII literal: space, \t, \n,
    \v, \f and \r, without the separators 0x1c-0x1f. *)
Definition isspace_c (c : ascii) : bool :=
  let n := nat_of_ascii c in
  (n =? 32)%nat || ((9 <=? n)%nat && (n <=? 13)%nat).

Fixpoint lstrip_c (s : string) : string :=
  match s with
  | String c s' => if isspace_c c then lstrip_c s' else s
  | EmptyString => EmptyString
  end.

Fixpoint rstrip_c (s : string) : string :=
  match s with
  | EmptyString => EmptyString
  | String c s' =>
      match rstrip_c s' with
      | EmptyString => if isspace_c c then EmptyString else String c EmptyString
      | r => String c r
      end
  end.

Definition strip_c (s : string) : string := rstrip_c (lstrip_c s).

(** [s.endswith(suffix)]. *)
Definition endswith (s suffix : string) : bool :=
  (String.length suffix <=? String.length s)%nat
  && String.eqb (drop (String.length s - String.length suffix) s) suffix.

(** [sep in s]. *)
Definition contains (sep s : string) : bool :=
  match partition sep s with Some _ => true | None => false end.

(** The value of a string of decimal digits, most significant first;
    [None] when a character is not a digit. *)
Fixpoint digits_from (acc : N) (s : string) : option N :=
  match s with
  | EmptyString => Some acc
  | String c s' =>
      if isdigit c
      then digits_from (acc * 10 + (N_of_ascii c - 48))%N s'
      else None
  end.

Definition digits (s : string) : option N := digits_from 0%N s.

(** The digit groups of a numeric literal: an underscore may stand only
    between two digits.  The literal without its underscores, or [None];
    [prev] is the character before [s]. *)
Fixpoint without_underscores (prev : ascii) (s : string) : option string :=
  match s with
  | EmptyString => if Ascii.eqb prev "_" then None else Some EmptyString
  | String c s' =>
      if Ascii.eqb c "_" then
        if isdigit prev then without_underscores c s' else None
      else if Ascii.eqb prev "_" && negb (isdigit c) then None
      else option_map (String c) (without_underscores c s')
  end.

(** An optional sign and the text after it. *)
Definition signed (s : string) : Z * string :=
  match s with
  | String "-" r => ((-1)%Z, r)
  | String "+" r => (1%Z, r)
  | _ => (1%Z, s)
  end.

(** The text before the first [e] or [E], and the text after it when
    there is one. *)
Fixpoint split_exponent (s : string) : string * option string :=
  match s with
  | EmptyString => (EmptyString, None)
  | String c s' =>
      if Ascii.eqb c "e" || Ascii.eqb c "E" then (EmptyString, Some s')
      else let '(m, x) := split_exponent s' in (String c m, x)
  end.

(** [sep] occurs in [s]. *)
Definition occurs (sep s : string) : Prop :=
  exists a b, s = (a ++ sep ++ b)%string.

End PyStr.

(** ** Python values, exceptions and the world *)

(** The values the script handles: what [json.load] returns and what the
    script builds itself.  A dict keeps its insertion order. *)
Inductive pyval : Type :=
| PNone
| PStr (s : string)
| PNum (q : Q)
| PList (l : list pyval)
| PDict (d : list (string * pyval)).

(** The exceptions that can occur.  All are subclasses of [Exception];
    [ToolError] is the bare [Exception] the script raises itself on a
    non-zero return code. *)
Inductive exn : Type :=
| KeyError | TypeError | ValueError | IndexError | AttributeError
| ZeroDivisionError | FileNotFoundError | PermissionError | EOFError
| IsADirectoryError | UnboundLocalError | JSONDecodeError
| UnicodeDecodeError | OverflowError
| CalledProcessError | ToolError.

(** How a computation ends: it returns, an exception propagates, or
    [exit(code)] was called ([SystemExit] is not an [Exception], so
    [except Exception] does not catch it). *)
Inductive result (A : Type) : Type :=
| Ok (a : A)
| Raise (e : exn)
| Exit (code : Z).
Arguments Ok {A} a.
Arguments Raise {A} e.
Arguments Exit {A} code.

(** A line printed on standard output: fixed text, a label with the
    value interpolated into the f-string, or a diagnostic with the
    exception it reports. *)
Inductive line : Type :=
| Text (s : string)
| Shown (label : string) (v : pyval)
| Failed (label : string) (e : exn).

(** A detached process started by [subprocess.Popen]. *)
Record proc : Type := mkProc {
  proc_command : pyval;
  proc_log : string
}.

(** The state the script acts on.  [files] maps a path to the file's text
    and keeps the order in which the directory lists its entries. *)
Record world : Type := mkWorld {
  files : list (string * string);
  dirs : list string;
  procs : list proc;
  stdout : list line
}.

(** What the script gets from outside. *)
Inductive run_outcome : Type :=
| RunRaise (e : exn)
| Ran (returncode : Z) (out err : string) (files' : list (string * string)).

Record env : Type := mkEnv {
  cwd : string;                        (* os.getcwd() *)
  os_name : string;                    (* os.name *)
  now_strftime : string;               (* datetime.now().strftime(...) *)
  elapsed_since : string -> option Q;  (* now() - strptime(s, ...); None: ValueError *)
  json_dump : pyval -> string;         (* text written by json.dump(v, f, indent=4) *)
  json_load : string -> option pyval;  (* json.load / json.loads; None: not a document *)
  writable : string -> bool;           (* may the path be opened for writing *)
  popen : pyval -> bool;               (* does subprocess.Popen start the command *)
  run : pyval -> list (string * string) -> run_outcome;  (* subprocess.run *)
  input : option string;               (* the line read by input(); None: end of file *)
  repr : pyval -> string;              (* how an f-string shows a value that is not a str *)
  glob_magic : string -> list string -> list string
    (* glob(pattern) among the existing paths, for a pattern whose
       directory part has metacharacters *)
}.

(** The same host with other tools, another process starter or another
    answer on the terminal. *)
Definition with_run (E : env)
           (r : pyval -> list (string * string) -> run_outcome) : env :=
  mkEnv (cwd E) (os_name E) (now_strftime E) (elapsed_since E) (json_dump E)
        (json_load E) (writable E) (popen E) r (input E) (repr E) (glob_magic E).

Definition with_popen (E : env) (p : pyval -> bool) : env :=
  mkEnv (cwd E) (os_name E) (now_strftime E) (elapsed_since E) (json_dump E)
        (json_load E) (writable E) p (run E) (input E) (repr E) (glob_magic E).

Definition with_input (E : env) (typed : option string) : env :=
  mkEnv (cwd E) (os_name E) (now_strftime E) (elapsed_since E) (json_dump E)
        (json_load E) (writable E) (popen E) (run E) typed (repr E) (glob_magic E).

(** The state-and-exception monad of the script. *)
Definition M (A : Type) : Type := world -> result A * world.

Definition ret {A} (a : A) : M A := fun w => (Ok a, w).

Definition bind {A B} (m : M A) (k : A -> M B) : M B :=
  fun w =>
    match m w with
    | (Ok a, w') => k a w'
    | (Raise e, w') => (Raise e, w')
    | (Exit c, w') => (Exit c, w')
    end.

Definition raise {A} (e : exn) : M A := fun w => (Raise e, w).

(** [exit(code)]. *)
Definition exit {A} (code : Z) : M A := fun w => (Exit code, w).

(** [try: body / except Exception as e: handler]. *)
Definition try_except {A} (body : M A) (handler : exn -> M A) : M A :=
  fun w =>
    match body w with
    | (Raise e, w') => handler e w'
    | r => r
    end.

(** [try: body / except CalledProcessError as e: handler]. *)
Definition try_except_called {A} (body : M A) (handler : M A) : M A :=
  fun w =>
    match body w with
    | (Raise CalledProcessError, w') => handler w'
    | r => r
    end.

(** Lifts a pure computation that may raise. *)
Definition lift {A} (r : result A) : M A := fun w => (r, w).

Declare Scope py_scope.
Delimit Scope py_scope with py.
Notation "x <- m ;; k" := (bind m (fun x => k))
  (at level 61, m at next level, right associativity) : py_scope.
Notation "' pat <- m ;; k" := (bind m (fun x => match x with pat => k end))
  (at level 61, pat pattern, m at next level, right associativity) : py_scope.
Notation "m ;; k" := (bind m (fun _ => k))
  (at level 61, right associativity) : py_scope.
Local Open Scope py_scope.

(** The same for a computation without effects. *)
Definition rbind {A B} (r : result A) (k : A -> result B) : result B :=
  match r with
  | Ok a => k a
  | Raise e => Raise e
  | Exit c => Exit c
  end.

Notation "x <~ r ;; k" := (rbind r (fun x => k))
  (at level 61, r at next level, right associativity) : py_scope.

Definition print (l : line) : M unit :=
  fun w => (Ok tt, mkWorld (files w) (dirs w) (procs w) (stdout w ++ [l])).

(** [for x in xs: body x]. *)
Fixpoint for_each {A} (xs : list A) (body : A -> M unit) : M unit :=
  match xs with
  | [] => ret tt
  | x :: rest => body x ;; for_each rest body
  end.

(** *** Builtins on values *)

Fixpoint assoc {A} (k : string) (d : list (string * A)) : option A :=
  match d with
  | [] => None
  | (k', v) :: rest => if String.eqb k' k then Some v else assoc k rest
  end.

(** [d[k] = v]: the value of an existing key is replaced in place, a new
    key goes to the end. *)
Fixpoint assoc_set {A} (k : string) (v : A) (d : list (string * A))
  : list (string * A) :=
  match d with
  | [] => [(k, v)]
  | (k', v') :: rest =>
      if String.eqb k' k then (k, v) :: rest else (k', v') :: assoc_set k v rest
  end.

Definition assoc_remove {A} (k : string) (d : list (string * A))
  : list (string * A) :=
  filter (fun kv => negb (String.eqb (fst kv) k)) d.

(** [v[k]] for a string key. *)
Definition getitem (v : pyval) (k : string) : result pyval :=
  match v with
  | PDict d => match assoc k d with Some x => Ok x | None => Raise KeyError end
  | _ => Raise TypeError
  end.

(** [v[k] = x]. *)
Definition setitem (v : pyval) (k : string) (x : pyval) : result pyval :=
  match v with
  | PDict d => Ok (PDict (assoc_set k x d))
  | _ => Raise TypeError
  end.

Fixpoint chars (s : string) : list pyval :=
  match s with
  | EmptyString => []
  | String c s' => PStr (String c EmptyString) :: chars s'
  end.

(** [len(v)]. *)
Definition len (v : pyval) : result nat :=
  match v with
  | PList l => Ok (List.length l)
  | PDict d => Ok (List.length d)
  | PStr s => Ok (String.length s)
  | _ => Raise TypeError
  end.

(** The items a [for] loop over [v] visits. *)
Definition iterate (v : pyval) : result (list pyval) :=
  match v with
  | PList l => Ok l
  | PDict d => Ok (map (fun kv => PStr (fst kv)) d)
  | PStr s => Ok (chars s)
  | _ => Raise TypeError
  end.

(** [n * 10 ^ e] as a number in lowest terms. *)
Definition scale10 (n e : Z) : Q :=
  Qred (if (0 <=? e)%Z then Qmake (n * 10 ^ e) 1
        else Qmake n (Z.to_pos (10 ^ (- e)))).

(** The mantissa of a decimal literal: its digits as a whole number and
    the count of digits after the point.  There is at least one digit. *)
Definition mantissa_of (s : string) : option (Z * Z) :=
  match PyStr.partition "." s with
  | None =>
      match s, PyStr.digits s with
      | String _ _, Some n => Some (Z.of_N n, 0%Z)
      | _, _ => None
      end
  | Some (ip, fp) =>
      match PyStr.digits ip, PyStr.digits fp with
      | Some a, Some b =>
          if (String.length ip + String.length fp =? 0)%nat then None
          else
            let k := Z.of_nat (String.length fp) in
            Some ((Z.of_N a * 10 ^ k + Z.of_N b)%Z, k)
      | _, _ => None
      end
  end.

(** The exponent of a decimal literal: an optional sign and at least one
    digit. *)
Definition exponent_of (s : string) : option Z :=
  let '(sign, body) := PyStr.signed s in
  match body, PyStr.digits body with
  | String _ _, Some n => Some (sign * Z.of_N n)%Z
  | _, _ => None
  end.

(** [float(s)] on an ASCII string holding a decimal literal: optional
    surrounding whitespace, an optional sign, digits with an optional
    fraction and an optional exponent, underscores between digits.
    [inf], [nan] and the digits and spaces outside ASCII are outside the
    model.  Numbers are kept in lowest terms. *)
Definition float_of_string (s : string) : option Q :=
  match PyStr.without_underscores "000"%char (PyStr.strip_c s) with
  | None => None
  | Some t =>
      let '(sign, body) := PyStr.signed t in
      let '(mantissa, exponent) := PyStr.split_exponent body in
      match mantissa_of mantissa,
            match exponent with
            | Some x => exponent_of x
            | None => Some 0%Z
            end with
      | Some (m, k), Some x => Some (scale10 (sign * m) (x - k))
      | _, _ => None
      end
  end.

(** [float(v)]. *)
Definition float (v : pyval) : result Q :=
  match v with
  | PStr s =>
      match float_of_string s with Some q => Ok q | None => Raise ValueError end
  | PNum q => Ok q
  | _ => Raise TypeError
  end.

(** *** Files *)

Definition set_files (w : world) (fs : list (string * string)) : world :=
  mkWorld fs (dirs w) (procs w) (stdout w).

Definition newline : ascii := "010"%char.
Definition carriage_return : ascii := "013"%char.

(** [f.readlines()] of a file opened in text mode: the text is cut after
    every line end, and ["\r"] and ["\r\n"] are read as ["\n"]. *)
Fixpoint lines_from (cur s : string) : list string :=
  match s with
  | EmptyString => match cur with EmptyString => [] | _ => [cur] end
  | String c s' =>
      if Ascii.eqb c newline then
        (cur ++ String newline EmptyString)%string :: lines_from EmptyString s'
      else if Ascii.eqb c carriage_return then
        match s' with
        | String c' s'' =>
            if Ascii.eqb c' newline
            then (cur ++ String newline EmptyString)%string :: lines_from EmptyString s''
            else (cur ++ String newline EmptyString)%string :: lines_from EmptyString s'
        | EmptyString => [(cur ++ String newline EmptyString)%string]
        end
      else lines_from (cur ++ String c EmptyString) s'
  end.

Definition readlines (text : string) : list string := lines_from EmptyString text.

(** Is the byte a continuation byte of UTF-8, within [lo, hi]? *)
Definition byte_in (lo hi : nat) (c : ascii) : bool :=
  let n := nat_of_ascii c in (lo <=? n)%nat && (n <=? hi)%nat.

(** Are the bytes well-formed UTF-8, as the strict decoder requires: no
    stray or missing continuation byte, no overlong form, no surrogate,
    nothing above U+10FFFF. *)
Fixpoint utf8_valid (s : string) : bool :=
  match s with
  | EmptyString => true
  | String c0 s1 =>
      let b0 := nat_of_ascii c0 in
      if (b0 <=? 127)%nat then utf8_valid s1
      else if (194 <=? b0)%nat && (b0 <=? 223)%nat then
        match s1 with
        | String c1 s2 => byte_in 128 191 c1 && utf8_valid s2
        | _ => false
        end
      else if (224 <=? b0)%nat && (b0 <=? 239)%nat then
        match s1 with
        | String c1 (String c2 s3) =>
            byte_in (if (b0 =? 224)%nat then 160 else 128)
                    (if (b0 =? 237)%nat then 159 else 191) c1
            && byte_in 128 191 c2 && utf8_valid s3
        | _ => false
        end
      else if (240 <=? b0)%nat && (b0 <=? 244)%nat then
        match s1 with
        | String c1 (String c2 (String c3 s4)) =>
            byte_in (if (b0 =? 240)%nat then 144 else 128)
                    (if (b0 =? 244)%nat then 143 else 191) c1
            && byte_in 128 191 c2 && byte_in 128 191 c3 && utf8_valid s4
        | _ => false
        end
      else false
  end.

(** Is one of the glob metacharacters in the path?  ([glob.has_magic]) *)
Definition has_magic (path : string) : bool :=
  PyStr.contains "*" path || PyStr.contains "?" path || PyStr.contains "[" path.

(** [os.path.join(a, b)] of posixpath. *)
Definition path_join (a b : string) : string :=
  if prefix "/" b then b
  else if String.eqb a EmptyString || PyStr.endswith a "/" then a ++ b
  else a ++ "/" ++ b.

(** The name of [path] inside directory [dir], when [path] is a direct
    entry of [dir]. *)
Definition entry_name (dir path : string) : option string :=
  if prefix (dir ++ "/") path then
    let name := PyStr.drop (String.length dir + 1) path in
    if String.eqb name EmptyString || PyStr.contains "/" name then None
    else Some name
  else None.

Fixpoint entry_names (dir : string) (paths : list string) : list string :=
  match paths with
  | [] => []
  | p :: rest =>
      match entry_name dir p with
      | Some n => n :: entry_names dir rest
      | None => entry_names dir rest
      end
  end.

(** Does a file name match the pattern [*.mkv]?  A leading dot is not
    matched by [*]. *)
Definition matches_mkv (name : string) : bool :=
  PyStr.endswith name ".mkv" && negb (prefix "." name).

(** Is [path] below the directory [dir]? *)
Definition below (dir path : string) : bool := prefix (dir ++ "/") path.

(** [sorted(xs)] on strings: insertion into the sorted tail, keeping the
    order of equal items. *)
Fixpoint insert_sorted (x : string) (xs : list string) : list string :=
  match xs with
  | [] => [x]
  | y :: rest =>
      if String.leb x y then x :: xs else y :: insert_sorted x rest
  end.

Fixpoint sorted (xs : list string) : list string :=
  match xs with
  | [] => []
  | x :: rest => insert_sorted x (sorted rest)
  end.

(** [int(q)]: truncation towards zero. *)
Definition int_of (q : Q) : Z := Z.quot (Qnum q) (Zpos (Qden q)).

(** Can [timedelta(seconds=n)] be made?  The days it holds must be
    within 999999999 of zero; the days are [n // 86400]. *)
Definition timedelta_ok (n : Z) : bool :=
  ((-999999999 <=? n / 86400) && (n / 86400 <=? 999999999))%Z.

(** ** The script *)

Section Script.

Variable E : env.

(** How the operating system reads a path: relative to the working
    directory. *)
Definition resolve (path : string) : string := path_join (cwd E) path.

(** [open(path, 'r')]: the content of the file, as the bytes stored in
    it; reading text from it decodes them ([decode]). *)
Definition open_read (path : string) : M string :=
  fun w =>
    match assoc (resolve path) (files w) with
    | Some text => (Ok text, w)
    | None => (Raise FileNotFoundError, w)
    end.

(** The text of a file's content: [f.read()] and [f.readlines()] fail
    when a byte anywhere in the file cannot be decoded. *)
Definition decode (content : string) : result string :=
  if utf8_valid content then Ok content else Raise UnicodeDecodeError.

(** [open(path, 'w')] and writing [text]: the file is created or
    replaced. *)
Definition open_write (path text : string) : M unit :=
  fun w =>
    if writable E (resolve path)
    then (Ok tt, set_files w (assoc_set (resolve path) text (files w)))
    else (Raise PermissionError, w).

(** [open(path, 'a')]: the file is created when absent, kept otherwise. *)
Definition open_append (path : string) : M unit :=
  fun w =>
    if writable E (resolve path) then
      match assoc (resolve path) (files w) with
      | Some _ => (Ok tt, w)
      | None => (Ok tt, set_files w (files w ++ [(resolve path, EmptyString)]))
      end
    else (Raise PermissionError, w).

(** [os.path.exists(path)]. *)
Definition path_exists (path : string) : M bool :=
  fun w =>
    (Ok (match assoc (resolve path) (files w) with
         | Some _ => true
         | None => existsb (String.eqb (resolve path)) (dirs w)
         end), w).

(** [os.remove(path)]. *)
Definition os_remove (path : string) : M unit :=
  fun w =>
    match assoc (resolve path) (files w) with
    | Some _ => (Ok tt, set_files w (assoc_remove (resolve path) (files w)))
    | None =>
        if existsb (String.eqb (resolve path)) (dirs w)
        then (Raise IsADirectoryError, w)
        else (Raise FileNotFoundError, w)
    end.

(** [os.makedirs(path, exist_ok=True)]. *)
Definition makedirs (path : string) : M unit :=
  fun w =>
    if existsb (String.eqb (resolve path)) (dirs w) then (Ok tt, w)
    else if writable E (resolve path)
    then (Ok tt, mkWorld (files w) (dirs w ++ [resolve path]) (procs w) (stdout w))
    else (Raise PermissionError, w).

(** The [os.walk(folder, topdown=False)] loop of [cleanup_directories]:
    every file and every directory below [folder] is removed, the
    folder itself stays. *)
Definition remove_below (folder : string) : M unit :=
  fun w =>
    (Ok tt,
     mkWorld (filter (fun kv => negb (below folder (fst kv))) (files w))
             (filter (fun d => negb (below folder d)) (dirs w))
             (procs w) (stdout w)).

(** [glob(os.path.join(dir, "*.mkv"))].  When [dir] has no
    metacharacter it is taken literally: the result is the matching
    entries of [dir], in the order the directory lists them.  When it
    has one, [dir] is itself a pattern for directories, and the result
    is what glob finds for it. *)
Definition glob_mkv (dir : string) : M (list string) :=
  fun w =>
    let existing := map fst (files w) ++ dirs w in
    (Ok (if has_magic dir
         then glob_magic E (path_join dir "*.mkv") existing
         else map (path_join dir)
                  (filter matches_mkv (entry_names (resolve dir) existing))),
     w).

(** [subprocess.run(command, ...)]: waits for the command, which may
    change the files. *)
Definition subprocess_run (command : pyval) : M (Z * string * string) :=
  fun w =>
    match run E command (files w) with
    | RunRaise e => (Raise e, w)
    | Ran rc out err fs' => (Ok (rc, out, err), set_files w fs')
    end.

(** [subprocess.Popen(command, stdout=log_file, ...)]: starts the
    command and returns at once.  The started process runs beside the
    script; what it writes to its log later is not a step of the script
    and appears in the files of a later run. *)
Definition subprocess_Popen (command : pyval) (log : string) : M unit :=
  fun w =>
    if popen E command
    then (Ok tt, mkWorld (files w) (dirs w) (procs w ++ [mkProc command log]) (stdout w))
    else (Raise FileNotFoundError, w).

(** A value inside an f-string. *)
Definition fmt (v : pyval) : string :=
  match v with
  | PStr s => s
  | _ => repr E v
  end.

(** The argument [input_file]: a string, or [None] when it was not
    given on the command line. *)
Definition arg (input_file : option string) : pyval :=
  match input_file with Some s => PStr s | None => PNone end.

(** *** Helper functions *)

Definition get_abs_path (relative_path : string) : string :=
  path_join (cwd E) relative_path.

(** [get_abs_path] on an argument that may be [None]. *)
Definition get_abs_path_arg (input_file : option string) : result string :=
  match input_file with
  | Some s => Ok (get_abs_path s)
  | None => Raise TypeError
  end.

Definition ensure_directories_exist : M unit :=
  for_each ["tmp"; "log"] (fun dir =>
    let abs_dir_path := get_abs_path dir in
    makedirs abs_dir_path ;;
    print (Shown "[INFO] directory is ready." (PStr abs_dir_path))).

Definition user_confirmation : M bool :=
  print (Text "Proceed with cleanup? (yes/no): ") ;;
  answer <- lift (match input E with
                  | Some s => Ok s
                  | None => Raise EOFError
                  end) ;;
  let user_input := PyStr.lower answer in
  if existsb (String.eqb user_input) ["yes"; "y"] then ret true
  else ret false.

Definition cleanup_directories : M unit :=
  for_each ["log"; "tmp"; "__pycache__"] (fun folder =>
    let abs_folder_path := get_abs_path folder in
    remove_below abs_folder_path ;;
    print (Shown "[INFO] Cleaned up folder." (PStr abs_folder_path))) ;;
  let ffjob_json_path := get_abs_path "ffjob.json" in
  present <- path_exists ffjob_json_path ;;
  if present : bool then
    os_remove ffjob_json_path ;;
    print (Shown "[INFO] file removed." (PStr ffjob_json_path))
  else ret tt.

Definition verify_chapter_files : M unit :=
  chapter_files <- glob_mkv "tmp" ;;
  match chapter_files with
  | [] =>
      print (Text "[ERROR] No chapter files found in 'tmp' directory.") ;;
      exit 1
  | _ :: _ =>
      print (Text "[INFO] All chapter files found. Proceeding to concatenation.")
  end.

(** *** Main functions *)

Definition vmaf_filter : string :=
  "[0:v]setpts=PTS-STARTPTS[reference];[1:v]setpts=PTS-STARTPTS[distorted];[distorted][reference]libvmaf=model_path=/usr/local/share/model/vmaf_v0.6.1.json:log_path=vmaf_log.json:log_fmt=json".

(** [json.loads(text)]. *)
Definition loads (text : string) : result pyval :=
  match json_load E text with
  | Some v => Ok v
  | None => Raise JSONDecodeError
  end.

(** [json.load(f)]: the content of the file is decoded and parsed. *)
Definition load (content : string) : result pyval :=
  match json_load E content with
  | Some v => Ok v
  | None =>
      Raise (if utf8_valid content then JSONDecodeError else UnicodeDecodeError)
  end.

Definition run_vmaf (original_file : option string) (encoded_file : string)
  : M pyval :=
  try_except
    (print (Text "[INFO] Running VMAF test on the first 1 minute of video...") ;;
     let vmaf_command :=
       PList [PStr "ffmpeg";
              PStr "-i"; PStr encoded_file;
              PStr "-i"; arg original_file;
              PStr "-filter_complex"; PStr vmaf_filter;
              PStr "-t"; PStr "60";
              PStr "-f"; PStr "null";
              PStr "-"] in
     '(returncode, _, _) <- subprocess_run vmaf_command ;;
     (if (returncode =? 0)%Z then ret tt else raise ToolError) ;;
     log_file <- open_read "vmaf_log.json" ;;
     vmaf_results <- lift (load log_file) ;;
     vmaf_score <- lift (getitem vmaf_results "VMAF_score") ;;
     print (Shown "[INFO] VMAF score for the first 1 minute:" vmaf_score) ;;
     ret vmaf_score)
    (fun e =>
       print (Failed "[ERROR] Failed to run VMAF test:" e) ;;
       exit 1).

(** [os.path.abspath] on a path of the working directory; the paths it
    is given here are already normal. *)
Definition abspath (path : string) : string := resolve path.

(** One line of the concat manifest. *)
Definition manifest_line (file_path : string) : string :=
  let abs_path := abspath file_path in
  let formatted_path :=
    if String.eqb (os_name E) "nt"
    then PyStr.replace "\"%char "/" abs_path
    else abs_path in
  "file '" ++ formatted_path ++ "'" ++ String newline EmptyString.

Definition concat_manifest (chapter_files : list string) : string :=
  String.concat EmptyString (map manifest_line chapter_files).

Definition concatenate_chapters : M unit :=
  try_except_called
    (print (Text "[INFO] Concatenating chapter files...") ;;
     let tmp_dir := get_abs_path "tmp" in
     globbed <- glob_mkv tmp_dir ;;
     let chapter_files := sorted globbed in
     let concat_file_path := path_join tmp_dir "concat.txt" in
     open_write concat_file_path (concat_manifest chapter_files) ;;
     let concat_command :=
       PList [PStr "ffmpeg";
              PStr "-f"; PStr "concat";
              PStr "-safe"; PStr "0";
              PStr "-i"; PStr concat_file_path;
              PStr "-c"; PStr "copy";
              PStr (path_join (cwd E) "output.mkv")] in
     '(returncode, _, _) <- subprocess_run concat_command ;;
     (if (returncode =? 0)%Z then ret tt else raise CalledProcessError) ;;
     print (Text "[SUCCESS] Chapters concatenated successfully into 'output.mkv'."))
    (print (Failed "[ERROR] Failed to concatenate chapter files:" CalledProcessError) ;;
     exit 1).

(** The [command] of [run_ffprobe]. *)
Definition ffprobe_command (path : string) : pyval :=
  PList [PStr "ffprobe";
         PStr "-i"; PStr path;
         PStr "-print_format"; PStr "json";
         PStr "-show_chapters";
         PStr "-show_format";
         PStr "-loglevel"; PStr "error"].

Definition run_ffprobe (input_file : option string) : M pyval :=
  try_except
    (print (Shown "[INFO] Running ffprobe to extract chapter information for"
                  (arg input_file)) ;;
     path <- lift (get_abs_path_arg input_file) ;;
     let command := ffprobe_command path in
     '(returncode, out, _) <- subprocess_run command ;;
     (if (returncode =? 0)%Z then ret tt else raise ToolError) ;;
     print (Text "[SUCCESS] Chapter information extracted successfully.") ;;
     lift (loads out))
    (fun e =>
       print (Failed "[ERROR] Failed to run ffprobe:" e) ;;
       exit 1).

(** [v.replace(" ", "_")]: only a [str] has the method. *)
Definition replace_spaces (v : pyval) : result string :=
  match v with
  | PStr s => Ok (PyStr.replace " "%char "_" s)
  | _ => Raise AttributeError
  end.

(** The body of the loop of [generate_ffmpeg_commands]: the work item
    of one chapter. *)
Definition work_item (chapter : pyval) (input_file : option string)
           (svt_av1_params preset crf : string) : result pyval :=
  tags <~ getitem chapter "tags" ;;
  raw_title <~ getitem tags "title" ;;
  title <~ replace_spaces raw_title ;;
  let tmp_dir := get_abs_path "tmp" in
  let output_file := path_join tmp_dir (title ++ ".mkv") in
  start_time <~ getitem chapter "start_time" ;;
  end_time <~ getitem chapter "end_time" ;;
  input_path <~ get_abs_path_arg input_file ;;
  let base_command :=
    [PStr "ffmpeg";
     PStr "-ss"; start_time;
     PStr "-to"; end_time;
     PStr "-i"; PStr input_path;
     PStr "-c:v"; PStr "libsvtav1";
     PStr "-preset"; PStr preset;
     PStr "-crf"; PStr crf;
     PStr "-g"; PStr "360";
     PStr "-pix_fmt"; PStr "yuv420p10le";
     PStr "-svtav1-params"; PStr svt_av1_params;
     PStr "-c:a"; PStr "libopus";
     PStr "-ac"; PStr "6";
     PStr "-b:a"; PStr "256K";
     PStr "-vbr:a"; PStr "2";
     PStr "-sn";
     PStr "-reset_timestamps"; PStr "1";
     PStr output_file] in
  end_seconds <~ float end_time ;;
  start_seconds <~ float start_time ;;
  Ok (PDict [("title", PStr title);
             ("length_in_seconds", PNum (Qred (end_seconds - start_seconds)));
             ("command", PList base_command)]).

Fixpoint work_items (chapters : list pyval) (input_file : option string)
         (svt_av1_params preset crf : string) : result (list pyval) :=
  match chapters with
  | [] => Ok []
  | chapter :: rest =>
      item <~ work_item chapter input_file svt_av1_params preset crf ;;
      items <~ work_items rest input_file svt_av1_params preset crf ;;
      Ok (item :: items)
  end.

Definition generate_ffmpeg_commands (chapters : pyval)
           (input_file : option string) (svt_av1_params preset crf : string)
  : M (list pyval) :=
  chapter_list <- lift (iterate chapters) ;;
  ffmpeg_commands <-
    lift (work_items chapter_list input_file svt_av1_params preset crf) ;;
  print (Shown "" (PList ffmpeg_commands)) ;;
  ret ffmpeg_commands.

(** [save_ffjob_info] changes the dict it is given; the value returned
    here is that dict after the call. *)
Definition save_ffjob_info (ffjob_info : pyval) (input_file : option string)
           (total_length : Q) : M pyval :=
  match setitem ffjob_info "total_length_in_seconds" (PNum total_length) with
  | Ok info1 =>
      match setitem info1 "executed_datetime" (PStr (now_strftime E)) with
      | Ok info2 =>
          try_except
            (open_write "ffjob.json" (json_dump E info2) ;;
             print (Text "[SUCCESS] Saved job information to ffjob.json") ;;
             ret info2)
            (fun e =>
               print (Failed "[ERROR] Failed to save job information:" e) ;;
               ret info2)
      | Raise e =>
          print (Failed "[ERROR] Failed to save job information:" e) ;;
          ret info1
      | Exit c => exit c
      end
  | Raise e =>
      print (Failed "[ERROR] Failed to save job information:" e) ;;
      ret ffjob_info
  | Exit c => exit c
  end.

Definition execute_ffmpeg_command (chapter_info : pyval) : M unit :=
  match getitem chapter_info "title" with
  | Ok title =>
      try_except
        (command <- lift (getitem chapter_info "command") ;;
         let log_file_path :=
           path_join (get_abs_path "log") (fmt title ++ ".log") in
         open_append log_file_path ;;
         subprocess_Popen command log_file_path ;;
         print (Shown "[INFO] Encoding is running in the background. Title, log:"
                      (PList [title; PStr log_file_path])))
        (fun e =>
           print (Failed ("[ERROR] Failed to start encoding for " ++ fmt title) e))
  | Raise _ =>
      (* the handler formats [title], which was never bound *)
      raise UnboundLocalError
  | Exit c => exit c
  end.

Definition get_ffjob_info : M pyval :=
  try_except
    (f <- open_read "ffjob.json" ;;
     lift (load f))
    (fun e =>
       print (Failed "[ERROR] Failed to read job information:" e) ;;
       exit 1).

(** [last_line.split(marker)[1].split(" ")[0]]. *)
Definition field (marker last_line : string) : result string :=
  match nth_error (PyStr.split marker last_line) 1 with
  | Some rest =>
      match nth_error (PyStr.split " " rest) 0 with
      | Some value => Ok value
      | None => Raise IndexError
      end
  | None => Raise IndexError
  end.

Definition parse_log_file (log_filename : string) : M (string * string) :=
  f <- open_read log_filename ;;
  text <- lift (decode f) ;;
  let lines := readlines text in
  match lines with
  | _ :: _ =>
      let last_line := List.last lines EmptyString in
      fps <- lift (field "fps=" last_line) ;;
      time_encoded <- lift (field "time=" last_line) ;;
      ret (fps, time_encoded)
  | [] => ret ("N/A", "00:00:00.00")
  end.

(** [format_time_delta] shows [timedelta(seconds=int(total_seconds))];
    the model keeps the whole seconds.  A [timedelta] out of range is an
    [OverflowError]. *)
Definition format_time_delta (total_seconds : Q) : result pyval :=
  let seconds := int_of total_seconds in
  if timedelta_ok seconds then Ok (PNum (inject_Z seconds))
  else Raise OverflowError.

(** [sum(x * float(t) for x, t in zip(weights, parts))], continued from
    [acc]. *)
Fixpoint weighted_sum (acc : Q) (weights : list Q) (parts : list string)
  : result Q :=
  match weights, parts with
  | x :: weights', t :: parts' =>
      f <~ float (PStr t) ;;
      weighted_sum (acc + x * f) weights' parts'
  | _, _ => Ok acc
  end.

(** The seconds of a [hh:mm:ss] time. *)
Definition encoded_seconds (time_encoded : string) : result Q :=
  weighted_sum 0 [3600; 60; 1] (PyStr.split ":" time_encoded).

(** A number read from the ledger; a ledger whose field is not a number
    is outside the model and is reported as a [TypeError]. *)
Definition number (v : pyval) : result Q :=
  match v with
  | PNum q => Ok q
  | _ => Raise TypeError
  end.

(** The loop of [check_encoding_status], from the running total. *)
Fixpoint status_loop (chapters : list pyval) (total_encoded_time_seconds : Q)
  : M Q :=
  match chapters with
  | [] => ret total_encoded_time_seconds
  | chapter :: rest =>
      title <- lift (getitem chapter "title") ;;
      command <- lift (getitem chapter "command") ;;
      print (Shown "Chapter:" title) ;;
      print (Shown "Command:" command) ;;
      let log_filename :=
        path_join (get_abs_path "log") (fmt title ++ ".log") in
      '(fps, time_encoded) <- parse_log_file log_filename ;;
      encoded_time_seconds <- lift (encoded_seconds time_encoded) ;;
      print (Shown "Encoding Speed (fps):" (PStr fps)) ;;
      print (Shown "Time Encoded (hh:mm:ss):" (PStr time_encoded)) ;;
      status_loop rest (total_encoded_time_seconds + encoded_time_seconds)
  end.

Definition check_encoding_status (ffjob_info : pyval) : M unit :=
  chapters <- lift (getitem ffjob_info "chapters") ;;
  chapter_list <- lift (iterate chapters) ;;
  total_encoded_time_seconds <- status_loop chapter_list 0 ;;
  total <- lift (getitem ffjob_info "total_length_in_seconds") ;;
  encoded_time <- lift (format_time_delta total_encoded_time_seconds) ;;
  print (Shown "Total Encoded Time (hh:mm:ss):" encoded_time) ;;
  total_video_length <- lift (number total) ;;
  video_length <- lift (format_time_delta total_video_length) ;;
  print (Shown "Total Video Length (hh:mm:ss):" video_length) ;;
  completion <- lift (if Qeq_bool total_video_length 0
                      then Raise ZeroDivisionError
                      else Ok (Qred (total_encoded_time_seconds
                                     / total_video_length * 100))) ;;
  print (Shown "Completion (%):" (PNum completion)) ;;
  executed <- lift (getitem ffjob_info "executed_datetime") ;;
  elapsed_time <- lift (match executed with
                        | PStr s =>
                            match elapsed_since E s with
                            | Some d => Ok d
                            | None => Raise ValueError
                            end
                        | _ => Raise TypeError
                        end) ;;
  print (Shown "Total Encoding Time:" (PNum elapsed_time)).

Definition main (input_file : option string)
           (svt_av1_params preset crf : string) (info complete : bool)
  : M unit :=
  if complete then
    verify_chapter_files ;;
    concatenate_chapters ;;
    run_vmaf input_file "output.mkv" ;;
    confirmed <- user_confirmation ;;
    if confirmed : bool then
      (* #cleanup_directories() *)
      ret tt
    else
      print (Text "[INFO] Cleanup aborted by user.")
  else if info then
    ffjob_info <- get_ffjob_info ;;
    check_encoding_status ffjob_info
  else
    print (Text "[INFO] Script started. Preparing to process video file...") ;;
    ensure_directories_exist ;;
    json_output <- run_ffprobe input_file ;;
    chapters <- lift (getitem json_output "chapters") ;;
    total_length <- lift (format <~ getitem json_output "format" ;;
                          duration <~ getitem format "duration" ;;
                          float duration) ;;
    count <- lift (len chapters) ;;
    print (Shown "[INFO] Found chapters. Generating ffmpeg commands..."
                 (PNum (inject_Z (Z.of_nat count)))) ;;
    ffmpeg_commands <-
      generate_ffmpeg_commands chapters input_file svt_av1_params preset crf ;;
    let ffjob_info := PDict [("chapters", PList ffmpeg_commands)] in
    for_each ffmpeg_commands (fun chapter_info =>
      title <- lift (getitem chapter_info "title") ;;
      print (Shown "Generated command for encoding" title) ;;
      execute_ffmpeg_command chapter_info) ;;
    save_ffjob_info ffjob_info input_file total_length ;;
    print (Text "All ffmpeg commands have been generated and dispatched for encoding.").

End Script.

(** The exit status of the script for the way [main] ended: an uncaught
    exception ends the interpreter with status 1. *)
Definition exit_status {A} (r : result A) : Z :=
  match r with
  | Ok _ => 0
  | Raise _ => 1
  | Exit c => c
  end.

(** ** A concrete host for examples

    A working directory [/work], tools that always succeed, and a json
    module that writes compact text and reads back the documents of the
    examples. *)

Module Demo.

Definition quote : string := String "034"%char EmptyString.

Definition show_Z (z : Z) : string :=
  DecimalString.NilZero.string_of_int (Z.to_int z).

(** The text of a value; a whole number is written like a Python float,
    any other number as a fraction. *)
Fixpoint dumps (v : pyval) : string :=
  match v with
  | PNone => "null"
  | PStr s => quote ++ s ++ quote
  | PNum q =>
      if Pos.eqb (Qden q) 1 then show_Z (Qnum q) ++ ".0"
      else show_Z (Qnum q) ++ "/" ++ show_Z (Zpos (Qden q))
  | PList l =>
      "[" ++ String.concat ", " (map dumps l) ++ "]"
  | PDict d =>
      "{" ++ String.concat ", "
               (map (fun kv : string * pyval =>
                       (quote ++ fst kv ++ quote ++ ": " ++ dumps (snd kv))%string) d)
          ++ "}"
  end.

(** Reading back: the document among [known] with this text. *)
Definition loads_known (known : list pyval) (text : string) : option pyval :=
  find (fun v => String.eqb (dumps v) text) known.

Definition chapter (title start_time end_time : string) : pyval :=
  PDict [("start_time", PStr start_time);
         ("end_time", PStr end_time);
         ("tags", PDict [("title", PStr title)])].

(** What ffprobe reports for a source with the given chapters. *)
Definition probe (chapters : list pyval) (duration : string) : pyval :=
  PDict [("chapters", PList chapters);
         ("format", PDict [("duration", PStr duration)])].

Definition vmaf_result : pyval := PDict [("VMAF_score", PNum 95)].

(** The tools: ffprobe prints [probe_json]; the concatenation creates
    [output.mkv]; the quality check writes [vmaf_log.json]. *)
Definition tools (probe_json : pyval) (command : pyval)
           (fs : list (string * string)) : run_outcome :=
  match command with
  | PList (PStr program :: PStr option :: _) =>
      if String.eqb program "ffprobe" then Ran 0 (dumps probe_json) "" fs
      else if String.eqb program "ffmpeg" then
        if String.eqb option "-f"
        then Ran 0 "" "" (assoc_set "/work/output.mkv" "video" fs)
        else Ran 0 "" "" (assoc_set "/work/vmaf_log.json" (dumps vmaf_result) fs)
      else RunRaise FileNotFoundError
  | _ => RunRaise FileNotFoundError
  end.

(** The host: what ffprobe reports, the documents json can read, which
    paths can be written and what the user types.  No directory of the
    examples matches a pattern with metacharacters. *)
Definition host (probe_json : pyval) (known : list pyval)
           (can_write : string -> bool) (typed : option string) : env :=
  {| cwd := "/work";
     os_name := "posix";
     now_strftime := "2024-01-01 12:00:00";
     elapsed_since := fun _ => Some 60;
     json_dump := dumps;
     json_load := loads_known (probe_json :: vmaf_result :: known);
     writable := can_write;
     popen := fun _ => true;
     run := tools probe_json;
     input := typed;
     repr := dumps;
     glob_magic := fun _ _ => [] |}.

Definition empty_world : world :=
  {| files := []; dirs := []; procs := []; stdout := [] |}.

Definition world_of (fs : list (string * string)) : world :=
  {| files := fs; dirs := ["/work/tmp"; "/work/log"]; procs := []; stdout := [] |}.

(** The two-chapter source of the end-to-end scenario. *)
Definition two_chapters : pyval :=
  probe [chapter "Part One" "0.000000" "10.000000";
         chapter "Part Two" "10.000000" "25.000000"]
        "25.000000".

Definition work (title : string) (length_in_seconds : Q) : pyval :=
  PDict [("title", PStr title);
         ("length_in_seconds", PNum length_in_seconds);
         ("command", PList [PStr "ffmpeg"; PStr "-i"; PStr "/work/movie.mkv"])].

(** The ledger of that dispatch. *)
Definition two_items : pyval :=
  PDict [("chapters", PList [work "Part_One" 10; work "Part_Two" 15]);
         ("total_length_in_seconds", PNum 25);
         ("executed_datetime", PStr "2024-01-01 12:00:00")].

(** A progress line of the encoder that ends at [time_encoded]. *)
Definition progress (time_encoded : string) : string :=
  "frame=  250 fps=25 q=30.0 size=    1024kB time=" ++ time_encoded
    ++ " bitrate= 838.9kbits/s speed=1x".

(** A host that only reports status. *)
Definition reporter : env :=
  host two_chapters [two_items] (fun _ => true) None.

(** The working directory with the ledger and the given logs. *)
Definition with_logs (logs : list (string * string)) : world :=
  world_of (("/work/ffjob.json", dumps two_items) :: logs).

(** Both encoders have reported the end of their chapter. *)
Definition both_done : world :=
  with_logs [("/work/log/Part_One.log", progress "00:00:10.00");
             ("/work/log/Part_Two.log", progress "00:00:15.00")].

Definition tab : string := String "009"%char EmptyString.

(** A chapter whose title has a tab between its words. *)
Definition tabbed_title : string := "Part" ++ tab ++ "One".

Definition planner : env := host two_chapters [] (fun _ => true) None.

(** A host that only finalizes; the user types [typed]. *)
Definition finalizer (typed : string) : env :=
  host two_chapters [] (fun _ => true) (Some typed).

(** The working directory after both encoders have finished; the
    second chapter was written first. *)
Definition encoded : world :=
  with_logs [("/work/log/Part_One.log", progress "00:00:10.00");
             ("/work/log/Part_Two.log", progress "00:00:15.00");
             ("/work/tmp/Part_Two.mkv", "video");
             ("/work/tmp/Part_One.mkv", "video")].

(** A source without chapters. *)
Definition no_chapters : pyval := probe [] "25.000000".

(** A host that dispatches the source [probe_json]. *)
Definition dispatcher (probe_json : pyval) (can_write : string -> bool) : env :=
  host probe_json [] can_write None.

(** Every path but the ledger can be written. *)
Definition ledger_locked (path : string) : bool :=
  negb (String.eqb path "/work/ffjob.json").

(** A ledger without items for a source of the given length. *)
Definition empty_ledger (total_length : Q) : pyval :=
  PDict [("chapters", PList []);
         ("total_length_in_seconds", PNum total_length);
         ("executed_datetime", PStr "2024-01-01 12:00:00")].

(** A source whose second chapter has no title. *)
Definition untitled_chapter : pyval :=
  probe [chapter "Part One" "0.000000" "10.000000";
         PDict [("start_time", PStr "10.000000");
                ("end_time", PStr "25.000000")]]
        "25.000000".

(** A host on which ffprobe fails. *)
Definition without_ffprobe : env :=
  with_run (dispatcher two_chapters (fun _ => true))
           (fun _ fs => Ran 1 "" "movie.mkv: No such file or directory" fs).

(** A host on which the encoder cannot be started. *)
Definition without_encoder : env :=
  with_popen (dispatcher two_chapters (fun _ => true)) (fun _ => false).

(** A host on which the concatenation fails. *)
Definition without_concat : env :=
  with_run (finalizer "yes")
           (fun _ fs => Ran 1 "" "concat.txt: Invalid data found" fs).

(** The ledger of the two items for a source of the given length. *)
Definition ledger_of_length (total_length : Q) : pyval :=
  PDict [("chapters", PList [work "Part_One" 10; work "Part_Two" 15]);
         ("total_length_in_seconds", PNum total_length);
         ("executed_datetime", PStr "2024-01-01 12:00:00")].

(** A log with a byte that is not UTF-8 (0xE9) before its last line. *)
Definition latin_log : string :=
  "Encod" ++ String "233"%char "" ++ String "010"%char "" ++ progress "00:00:10.00".

(** A working directory whose name has brackets.  For glob the pattern
    [Movies [2023]] stands for the names [Movies 2], [Movies 0] and
    [Movies 3]; no such directory exists, so it finds nothing.  ffmpeg
    fails on a manifest without entries. *)
Definition bracketed : env :=
  {| cwd := "/work/Movies [2023]";
     os_name := "posix";
     now_strftime := "2024-01-01 12:00:00";
     elapsed_since := fun _ => Some 60;
     json_dump := dumps;
     json_load := loads_known [vmaf_result];
     writable := fun _ => true;
     popen := fun _ => true;
     run := fun _ fs => Ran 1 "" "concat.txt: Invalid data found" fs;
     input := Some "no";
     repr := dumps;
     glob_magic := fun _ _ => [] |}.

(** Both chapters are encoded in that directory. *)
Definition bracketed_encoded : world :=
  {| files := [("/work/Movies [2023]/tmp/Part_Two.mkv", "video");
               ("/work/Movies [2023]/tmp/Part_One.mkv", "video")];
     dirs := ["/work/Movies [2023]/tmp"; "/work/Movies [2023]/log"];
     procs := [];
     stdout := [] |}.

End Demo.

(** ** Vocabulary of the statements *)

(** The log file of the work item with this title. *)
Definition log_of (E : env) (title : pyval) : string :=
  path_join (get_abs_path E "log") (fmt E title ++ ".log").

(** What [parse_log_file] answers when the files are [fs]; it reads the
    files only. *)
Definition log_parse (E : env) (fs : list (string * string))
           (log_filename : string) : result (string * string) :=
  fst (parse_log_file E log_filename (mkWorld fs [] [] [])).

(** The ledger as the status reporter needs it: the work items are in
    the list under ["chapters"]. *)
Definition ledger_items (ffjob_info : pyval) (items : list pyval) : Prop :=
  getitem ffjob_info "chapters" = Ok (PList items).

(** The work item [chapter] has a log that parses, and [secs] are the
    encoded seconds parsed from it. *)
Definition item_seconds (E : env) (fs : list (string * string))
           (chapter : pyval) (secs : Q) : Prop :=
  exists title command fps time_encoded,
    getitem chapter "title" = Ok title /\
    getitem chapter "command" = Ok command /\
    log_parse E fs (log_of E title) = Ok (fps, time_encoded) /\
    encoded_seconds time_encoded = Ok secs.

(** The completion percentages shown in an output. *)
Fixpoint completions (ls : list line) : list pyval :=
  match ls with
  | [] => []
  | Shown label v :: rest =>
      if String.eqb label "Completion (%):" then v :: completions rest
      else completions rest
  | _ :: rest => completions rest
  end.

(** The sum of the items' encoded seconds, as the reporter adds them. *)
Definition total_seconds (secs : list Q) : Q := fold_left Qplus secs 0.

(** The fields the planner reads from a chapter: the raw title, the
    boundaries and the seconds they stand for. *)
Definition chapter_fields (chapter : pyval) (raw_title : string)
           (start_time end_time : pyval) (start_seconds end_seconds : Q) : Prop :=
  (exists tags, getitem chapter "tags" = Ok tags
                /\ getitem tags "title" = Ok (PStr raw_title)) /\
  getitem chapter "start_time" = Ok start_time /\
  getitem chapter "end_time" = Ok end_time /\
  float start_time = Ok start_seconds /\
  float end_time = Ok end_seconds.

(** A valid chapter has a title and boundaries that are numbers. *)
Definition valid_chapter (chapter : pyval) : Prop :=
  exists raw_title start_time end_time start_seconds end_seconds,
    chapter_fields chapter raw_title start_time end_time
                   start_seconds end_seconds.

(** [item] is the work item planned for [chapter]: every space of the
    raw title has become an underscore, and the length is end minus
    start. *)
Definition planned (chapter item : pyval) : Prop :=
  exists raw_title start_time end_time start_seconds end_seconds,
    chapter_fields chapter raw_title start_time end_time
                   start_seconds end_seconds /\
    getitem item "title" = Ok (PStr (PyStr.replace " "%char "_" raw_title)) /\
    exists length_seconds,
      getitem item "length_in_seconds" = Ok (PNum length_seconds) /\
      length_seconds == end_seconds - start_seconds.

(** The specification's words for the title: every whitespace character of the
    raw title is replaced with the separator. *)
Fixpoint replace_whitespace (s : string) : string :=
  match s with
  | EmptyString => EmptyString
  | String c s' =>
      if PyStr.isspace c then String "_"%char (replace_whitespace s')
      else String c (replace_whitespace s')
  end.


(** The names of the chapter outputs the finalizer finds: the entries of
    the [tmp] directory that match [*.mkv], as the directory lists them. *)
Definition chapter_outputs (E : env) (w : world) : list string :=
  filter matches_mkv
         (entry_names (resolve E (get_abs_path E "tmp"))
                      (map fst (files w) ++ dirs w)).

(** Where the concat manifest is written. *)
Definition manifest_path (E : env) : string :=
  resolve E (path_join (get_abs_path E "tmp") "concat.txt").


(** The directories [ensure_directories_exist] asks for exist or can
    be made. *)
Definition ready (E : env) (w : world) : Prop :=
  forall dir,
    In dir ["tmp"; "log"] ->
    existsb (String.eqb (resolve E (get_abs_path E dir))) (dirs w) = true
    \/ writable E (resolve E (get_abs_path E dir)) = true.

(** ffprobe succeeds on the input file: it returns 0, leaves the files
    as [fs'] and prints a document that json reads as [json_output]. *)
Definition probed (E : env) (w : world) (input_file : string)
           (json_output : pyval) (fs' : list (string * string)) : Prop :=
  exists out err,
    run E (ffprobe_command (get_abs_path E input_file)) (files w)
    = Ran 0 out err fs'
    /\ json_load E out = Some json_output.

(** The metadata has the chapters [chapters] and a duration that reads
    as [total_length]. *)
Definition metadata (json_output chapters : pyval) (total_length : Q) : Prop :=
  getitem json_output "chapters" = Ok chapters /\
  exists format duration,
    getitem json_output "format" = Ok format /\
    getitem format "duration" = Ok duration /\
    float duration = Ok total_length.

(** A work item as the planner builds it. *)
Definition built_item (item : pyval) : Prop :=
  exists title length_seconds command,
    item = PDict [("title", PStr title);
                  ("length_in_seconds", PNum length_seconds);
                  ("command", PList command)].

(** The process the launcher starts for [item]: none when the log cannot
    be opened or the command does not start. *)
Definition job_of (E : env) (item : pyval) : list proc :=
  match getitem item "title", getitem item "command" with
  | Ok title, Ok command =>
      if writable E (resolve E (log_of E title)) && popen E command
      then [mkProc command (log_of E title)]
      else []
  | _, _ => []
  end.

Definition launched (E : env) (items : list pyval) : list proc :=
  flat_map (job_of E) items.

(** What [main] does in dispatch mode once the work items are made: it
    launches them, saves the ledger and reports. *)
Definition dispatch_rest (E : env) (ffmpeg_commands : list pyval)
           (input_file : option string) (total_length : Q) : M unit :=
  let ffjob_info := PDict [("chapters", PList ffmpeg_commands)] in
  for_each ffmpeg_commands (fun chapter_info =>
    title <- lift (getitem chapter_info "title") ;;
    print (Shown "Generated command for encoding" title) ;;
    execute_ffmpeg_command E chapter_info) ;;
  save_ffjob_info E ffjob_info input_file total_length ;;
  print (Text "All ffmpeg commands have been generated and dispatched for encoding.").

(** The ledger [save_ffjob_info] writes for these work items. *)
Definition ledger_of (E : env) (items : list pyval) (total_length : Q) : pyval :=
  PDict [("chapters", PList items);
         ("total_length_in_seconds", PNum total_length);
         ("executed_datetime", PStr (now_strftime E))].

(** The last character of a string. *)
Fixpoint last_char (s : string) : option ascii :=
  match s with
  | EmptyString => None
  | String c EmptyString => Some c
  | String _ s' => last_char s'
  end.

(** The world with more lines printed. *)
Definition add_out (w : world) (ls : list line) : world :=
  mkWorld (files w) (dirs w) (procs w) (stdout w ++ ls).

(** A computation that only reads the files and prints: its result and
    the lines it prints are the same in any two worlds with the same
    files, and nothing but the output changes. *)
Definition reports {A} (m : M A) : Prop :=
  forall w1 w2,
    files w1 = files w2 ->
    exists r ls, m w1 = (r, add_out w1 ls) /\ m w2 = (r, add_out w2 ls).

(** The output file of a work item: the last argument of its command. *)
Definition output_of (item : pyval) : result pyval :=
  command <~ getitem item "command" ;;
  match command with
  | PList args => Ok (List.last args PNone)
  | _ => Raise TypeError
  end.


(** The [concat_command] of [concatenate_chapters]. *)
Definition concat_command (E : env) : pyval :=
  PList [PStr "ffmpeg";
         PStr "-f"; PStr "concat";
         PStr "-safe"; PStr "0";
         PStr "-i"; PStr (path_join (get_abs_path E "tmp") "concat.txt");
         PStr "-c"; PStr "copy";
         PStr (path_join (cwd E) "output.mkv")].

(** The paths [concatenate_chapters] gets from glob. *)
Definition globbed_outputs (E : env) (w : world) : list string :=
  if has_magic (get_abs_path E "tmp")
  then glob_magic E (path_join (get_abs_path E "tmp") "*.mkv")
                  (map fst (files w) ++ dirs w)
  else map (path_join (get_abs_path E "tmp")) (chapter_outputs E w).

(** The files ffmpeg finds when [concatenate_chapters] runs it: those of
    [w] with the manifest written. *)
Definition files_with_manifest (E : env) (w : world) : list (string * string) :=
  assoc_set (manifest_path E)
            (concat_manifest E (sorted (globbed_outputs E w)))
            (files w).

(** The chapter outputs [verify_chapter_files] finds. *)
Definition outputs_found (E : env) (w : world) : list string :=
  filter matches_mkv
         (entry_names (resolve E "tmp") (map fst (files w) ++ dirs w)).

(** Two runs end the same way and leave the same files, directories
    and processes; their output may differ. *)
Definition same_end {A} (r1 r2 : result A * world) : Prop :=
  fst r1 = fst r2
  /\ files (snd r1) = files (snd r2)
  /\ dirs (snd r1) = dirs (snd r2)
  /\ procs (snd r1) = procs (snd r2).

(** ** Facts about the string functions *)

Module PyStrFacts.
Import PyStr.

Lemma prefix_drop sep s :
  prefix sep s = true -> s = (sep ++ drop (String.length sep) s)%string.
Proof.
  revert s. induction sep as [|c sep IH]; intros s H.
  - destruct s; reflexivity.
  - destruct s as [|c' s]; simpl in H; [discriminate|].
    destruct (ascii_dec c c') as [->|]; [|discriminate].
    simpl. f_equal. apply IH. exact H.
Qed.

Lemma prefix_append sep b : prefix sep (sep ++ b) = true.
Proof.
  induction sep as [|c sep IH]; simpl.
  - destruct b; reflexivity.
  - destruct (ascii_dec c c); [exact IH | congruence].
Qed.

Lemma partition_eq sep s :
  partition sep s =
  if prefix sep s then Some (EmptyString, drop (String.length sep) s)
  else match s with
       | EmptyString => None
       | String c s' =>
           match partition sep s' with
           | Some (a, b) => Some (String c a, b)
           | None => None
           end
       end.
Proof. destruct s; reflexivity. Qed.

Lemma partition_some sep s a b :
  partition sep s = Some (a, b) -> s = (a ++ sep ++ b)%string.
Proof.
  revert a b. induction s as [|c s IH]; intros a b H;
    rewrite partition_eq in H;
    destruct (prefix sep _) eqn:P.
  - injection H as <- <-. simpl. apply (prefix_drop _ _ P).
  - discriminate.
  - injection H as <- <-. simpl. apply (prefix_drop _ _ P).
  - destruct (partition sep s) as [[a' b']|] eqn:Q; [|discriminate].
    injection H as <- <-. simpl. f_equal. apply IH. reflexivity.
Qed.

Lemma partition_occurs sep a b :
  partition sep (a ++ sep ++ b) <> None.
Proof.
  induction a as [|c a IH].
  - simpl append. rewrite partition_eq, prefix_append. discriminate.
  - rewrite partition_eq. simpl append.
    destruct (prefix sep _); [discriminate|].
    destruct (partition sep (a ++ sep ++ b)) as [[? ?]|]; [discriminate|].
    exact IH.
Qed.

(** [partition] finds the separator exactly when it occurs. *)
Lemma partition_none_iff sep s :
  partition sep s = None <-> ~ occurs sep s.
Proof.
  split.
  - intros H [a [b ->]]. exact (partition_occurs sep a b H).
  - intros H. destruct (partition sep s) as [[a b]|] eqn:P; [|reflexivity].
    exfalso. apply H. exists a, b. apply partition_some. exact P.
Qed.

Lemma contains_occurs sep s : contains sep s = true <-> occurs sep s.
Proof.
  unfold contains. split.
  - destruct (partition sep s) as [[a b]|] eqn:P; [|discriminate].
    intros _. exists a, b. apply partition_some. exact P.
  - intros H. destruct (partition sep s) eqn:P; [reflexivity|].
    exfalso. apply (proj1 (partition_none_iff sep s) P H).
Qed.

Lemma split_fuel_nonempty fuel sep s : split_fuel fuel sep s <> [].
Proof.
  destruct fuel; simpl; [discriminate|].
  destruct (partition sep s) as [[? ?]|]; discriminate.
Qed.

(** The first piece always exists. *)
Lemma split_first sep s : exists x, nth_error (split sep s) 0 = Some x.
Proof.
  unfold split. destruct (split_fuel (S (String.length s)) sep s) eqn:F.
  - exfalso. exact (split_fuel_nonempty _ _ _ F).
  - eexists. reflexivity.
Qed.

(** The second piece exists exactly when the separator occurs. *)
Lemma split_second_none sep s :
  nth_error (split sep s) 1 = None <-> ~ occurs sep s.
Proof.
  rewrite <- partition_none_iff. unfold split. simpl.
  destruct (partition sep s) as [[a b]|]; simpl.
  - split; [|discriminate].
    destruct (split_fuel (String.length s) sep b) eqn:F; [|discriminate].
    exfalso. exact (split_fuel_nonempty _ _ _ F).
  - split; reflexivity.
Qed.

End PyStrFacts.

(** ** Facts about the monad *)

Lemma bind_ok {A B} (m : M A) (k : A -> M B) w a w1 :
  m w = (Ok a, w1) -> bind m k w = k a w1.
Proof. intros H. unfold bind. rewrite H. reflexivity. Qed.

Lemma bind_raise {A B} (m : M A) (k : A -> M B) w e w1 :
  m w = (Raise e, w1) -> bind m k w = (Raise e, w1).
Proof. intros H. unfold bind. rewrite H. reflexivity. Qed.

Lemma bind_exit {A B} (m : M A) (k : A -> M B) w c w1 :
  m w = (Exit c, w1) -> bind m k w = (Exit c, w1).
Proof. intros H. unfold bind. rewrite H. reflexivity. Qed.

Lemma bind_lift {A B} (r : result A) (k : A -> M B) w :
  bind (lift r) k w =
  match r with
  | Ok a => k a w
  | Raise e => (Raise e, w)
  | Exit c => (Exit c, w)
  end.
Proof. destruct r; reflexivity. Qed.

Lemma bind_print {B} (l : line) (k : unit -> M B) w :
  bind (print l) k w =
  k tt (mkWorld (files w) (dirs w) (procs w) (stdout w ++ [l])).
Proof. reflexivity. Qed.

(** ** The log parser *)

Section LogParser.

Variable E : env.

Lemma lines_from_nil cur s :
  lines_from cur s = [] <-> cur = EmptyString /\ s = EmptyString.
Proof.
  split.
  - revert cur. induction s as [|c s IH]; intros cur H.
    + destruct cur; [split; reflexivity | discriminate].
    + simpl in H.
      destruct (Ascii.eqb c newline); [discriminate|].
      destruct (Ascii.eqb c carriage_return).
      * destruct s as [|c' s]; [discriminate|].
        destruct (Ascii.eqb c' newline); discriminate.
      * apply IH in H. destruct H as [H _]. destruct cur; discriminate.
  - intros [-> ->]. reflexivity.
Qed.

(** A file has no lines exactly when it is empty. *)
Lemma readlines_nil text : readlines text = [] <-> text = EmptyString.
Proof.
  unfold readlines. rewrite lines_from_nil. intuition.
Qed.

Lemma field_absent marker last_line :
  ~ PyStr.occurs marker last_line -> field marker last_line = Raise IndexError.
Proof.
  intros H. unfold field.
  rewrite (proj2 (PyStrFacts.split_second_none marker last_line) H).
  reflexivity.
Qed.

Lemma field_present marker last_line :
  PyStr.occurs marker last_line -> exists v, field marker last_line = Ok v.
Proof.
  intros H. unfold field.
  destruct (nth_error (PyStr.split marker last_line) 1) as [rest|] eqn:N.
  - destruct (PyStrFacts.split_first " " rest) as [v Hv].
    rewrite Hv. exists v. reflexivity.
  - exfalso. apply PyStrFacts.split_second_none in N. exact (N H).
Qed.

Lemma field_cases marker last_line :
  (exists v, field marker last_line = Ok v)
  \/ field marker last_line = Raise IndexError.
Proof.
  destruct (PyStr.contains marker last_line) eqn:C.
  - left. apply field_present, PyStrFacts.contains_occurs, C.
  - right. apply field_absent. intros H.
    apply PyStrFacts.contains_occurs in H. congruence.
Qed.

(** [parse_log_file] reads the files and changes nothing. *)
Lemma parse_log_file_pure log_filename w :
  parse_log_file E log_filename w = (log_parse E (files w) log_filename, w).
Proof.
  unfold log_parse, parse_log_file, bind, open_read. simpl.
  destruct (assoc (resolve E log_filename) (files w)) as [text|]; [|reflexivity].
  unfold lift, decode.
  destruct (utf8_valid text); [|reflexivity].
  destruct (readlines text) as [|l ls]; [reflexivity|].
  unfold ret.
  destruct (field "fps=" _); try reflexivity.
  destruct (field "time=" _); reflexivity.
Qed.

Lemma log_parse_missing fs log_filename :
  assoc (resolve E log_filename) fs = None ->
  log_parse E fs log_filename = Raise FileNotFoundError.
Proof.
  intros H. unfold log_parse, parse_log_file, bind, open_read. simpl.
  rewrite H. reflexivity.
Qed.

Lemma log_parse_empty fs log_filename text :
  assoc (resolve E log_filename) fs = Some text ->
  readlines text = [] ->
  log_parse E fs log_filename = Ok ("N/A", "00:00:00.00").
Proof.
  intros H L. apply readlines_nil in L. subst text.
  unfold log_parse, parse_log_file, bind, open_read. simpl.
  rewrite H. reflexivity.
Qed.

(** A log with a byte that cannot be decoded is not read at all. *)
Lemma log_parse_undecodable fs log_filename text :
  assoc (resolve E log_filename) fs = Some text ->
  utf8_valid text = false ->
  log_parse E fs log_filename = Raise UnicodeDecodeError.
Proof.
  intros H U. unfold log_parse, parse_log_file, bind, open_read. simpl.
  rewrite H. unfold lift, decode. rewrite U. reflexivity.
Qed.

Lemma log_parse_markers_absent fs log_filename text :
  assoc (resolve E log_filename) fs = Some text ->
  utf8_valid text = true ->
  readlines text <> [] ->
  ~ PyStr.occurs "fps=" (List.last (readlines text) EmptyString)
  \/ ~ PyStr.occurs "time=" (List.last (readlines text) EmptyString) ->
  log_parse E fs log_filename = Raise IndexError.
Proof.
  intros H U L A. unfold log_parse, parse_log_file, bind, open_read. simpl.
  rewrite H. unfold lift, decode. rewrite U.
  destruct (readlines text) as [|l ls] eqn:R; [congruence|].
  destruct A as [A|A].
  - rewrite (field_absent _ _ A). reflexivity.
  - rewrite (field_absent "time=" _ A).
    destruct (field_cases "fps=" (List.last (l :: ls) EmptyString)) as [[v ->]| ->];
      reflexivity.
Qed.

(** The parser never calls [exit]. *)
Lemma log_parse_no_exit fs log_filename c :
  log_parse E fs log_filename <> Exit c.
Proof.
  unfold log_parse, parse_log_file, bind, open_read. simpl.
  destruct (assoc (resolve E log_filename) fs) as [text|]; [|discriminate].
  unfold lift, decode.
  destruct (utf8_valid text); [|discriminate].
  destruct (readlines text) as [|l ls]; [discriminate|].
  unfold ret.
  destruct (field_cases "fps=" (List.last (l :: ls) EmptyString)) as [[v ->]| ->];
    [|discriminate].
  destruct (field_cases "time=" (List.last (l :: ls) EmptyString)) as [[v' ->]| ->];
    discriminate.
Qed.

End LogParser.

(** ** The status loop *)

Section StatusLoop.

Variable E : env.

Lemma getitem_no_exit v k c : getitem v k <> Exit c.
Proof.
  destruct v; simpl; try discriminate.
  destruct (assoc k d); discriminate.
Qed.

Lemma float_no_exit v c : float v <> Exit c.
Proof.
  destruct v; simpl; try discriminate.
  destruct (float_of_string s); discriminate.
Qed.

Lemma weighted_sum_no_exit weights parts acc c :
  weighted_sum acc weights parts <> Exit c.
Proof.
  revert parts acc. induction weights as [|x ws IH]; intros parts acc.
  - discriminate.
  - destruct parts as [|t ts]; [discriminate|].
    simpl. destruct (float_of_string t); simpl; [apply IH | discriminate].
Qed.

Lemma completions_app a b :
  completions (a ++ b) = completions a ++ completions b.
Proof.
  induction a as [|l a IH]; [reflexivity|].
  destruct l as [s|label v|label e]; simpl; try exact IH.
  destruct (String.eqb label "Completion (%):"); simpl; rewrite IH; reflexivity.
Qed.

Lemma bind_parse_log {B} log_filename (k : string * string -> M B) w :
  bind (parse_log_file E log_filename) k w =
  match log_parse E (files w) log_filename with
  | Ok a => k a w
  | Raise e => (Raise e, w)
  | Exit c => (Exit c, w)
  end.
Proof.
  unfold bind. rewrite parse_log_file_pure.
  destruct (log_parse E (files w) log_filename); reflexivity.
Qed.

(** One turn of the loop either raises, or goes on to the next item
    with the item's seconds added; only the output grows, and not by a
    completion line. *)
Lemma status_loop_step chapter rest acc w :
  (exists e w', status_loop E (chapter :: rest) acc w = (Raise e, w'))
  \/ (exists secs w1,
        item_seconds E (files w) chapter secs /\
        files w1 = files w /\ dirs w1 = dirs w /\ procs w1 = procs w /\
        completions (stdout w1) = completions (stdout w) /\
        status_loop E (chapter :: rest) acc w
        = status_loop E rest (acc + secs) w1).
Proof.
  cbn [status_loop]. rewrite bind_lift.
  destruct (getitem chapter "title") as [title|e|c] eqn:T;
    [| left; eauto | exfalso; exact (getitem_no_exit _ _ _ T)].
  rewrite bind_lift.
  destruct (getitem chapter "command") as [command|e|c] eqn:C;
    [| left; eauto | exfalso; exact (getitem_no_exit _ _ _ C)].
  rewrite !bind_print, bind_parse_log. cbn [files].
  fold (log_of E title).
  destruct (log_parse E (files w) (log_of E title)) as [[fps t]|e|c] eqn:P;
    [| left; eauto | exfalso; exact (log_parse_no_exit _ _ _ _ P)].
  rewrite bind_lift.
  destruct (encoded_seconds t) as [secs|e|c] eqn:S;
    [| left; eauto | exfalso; exact (weighted_sum_no_exit _ _ _ _ S)].
  right. rewrite !bind_print. cbn [files dirs procs stdout].
  eexists secs, _.
  split; [exists title, command, fps, t; auto|].
  split; [|split; [|split; [|split; [|reflexivity]]]]; try reflexivity.
  cbn [stdout]. rewrite !completions_app. simpl. rewrite !app_nil_r. reflexivity.
Qed.

(** An item whose log parses lets the loop go on. *)
Lemma status_loop_item chapter rest acc w secs :
  item_seconds E (files w) chapter secs ->
  exists w1,
    files w1 = files w /\ dirs w1 = dirs w /\ procs w1 = procs w /\
    completions (stdout w1) = completions (stdout w) /\
    status_loop E (chapter :: rest) acc w = status_loop E rest (acc + secs) w1.
Proof.
  intros (title & command & fps & t & T & C & P & S).
  cbn [status_loop]. rewrite bind_lift, T, bind_lift, C.
  rewrite !bind_print, bind_parse_log. cbn [files].
  fold (log_of E title). rewrite P, bind_lift, S, !bind_print.
  eexists. split; [|split; [|split; [|split; [|reflexivity]]]];
    try reflexivity.
  cbn [stdout]. rewrite !completions_app. simpl. rewrite !app_nil_r. reflexivity.
Qed.

(** An item whose log does not parse stops the loop with that
    exception. *)
Lemma status_loop_item_raises chapter rest acc w title command ex :
  getitem chapter "title" = Ok title ->
  getitem chapter "command" = Ok command ->
  log_parse E (files w) (log_of E title) = Raise ex ->
  exists w', status_loop E (chapter :: rest) acc w = (Raise ex, w').
Proof.
  intros T C P.
  cbn [status_loop]. rewrite bind_lift, T, bind_lift, C.
  rewrite !bind_print, bind_parse_log. cbn [files].
  fold (log_of E title). rewrite P. eauto.
Qed.

(** When every log parses, the loop returns the running total plus the
    items' seconds. *)
Lemma status_loop_ok chapters secs :
  forall acc w,
    Forall2 (item_seconds E (files w)) chapters secs ->
    exists w',
      files w' = files w /\ dirs w' = dirs w /\ procs w' = procs w /\
      completions (stdout w') = completions (stdout w) /\
      status_loop E chapters acc w = (Ok (fold_left Qplus secs acc), w').
Proof.
  revert secs. induction chapters as [|c rest IH]; intros secs acc w F.
  - inversion F; subst. exists w. simpl. auto.
  - inversion F as [|? s ? secs' Hc Hrest]; subst.
    destruct (status_loop_item c rest acc w s Hc)
      as (w1 & F1 & D1 & P1 & C1 & ->).
    rewrite <- F1 in Hrest.
    destruct (IH secs' (acc + s) w1 Hrest) as (w' & F2 & D2 & P2 & C2 & ->).
    exists w'. simpl. repeat split; congruence.
Qed.

(** An item whose log does not parse makes the loop raise, wherever it
    is in the ledger. *)
Lemma status_loop_raises pre chapter post title ex :
  getitem chapter "title" = Ok title ->
  forall acc w,
    log_parse E (files w) (log_of E title) = Raise ex ->
    exists e w', status_loop E (pre ++ chapter :: post) acc w = (Raise e, w').
Proof.
  intros T. induction pre as [|c pre IH]; intros acc w P.
  - simpl app.
    destruct (getitem chapter "command") as [command|e|c] eqn:C.
    + destruct (status_loop_item_raises _ post acc w _ _ _ T C P) as [w' H].
      eauto.
    + cbn [status_loop]. rewrite bind_lift, T, bind_lift, C. eauto.
    + exfalso. exact (getitem_no_exit _ _ _ C).
  - simpl app.
    destruct (status_loop_step c (pre ++ chapter :: post) acc w)
      as [H | (secs & w1 & _ & F1 & _ & _ & _ & ->)]; [exact H|].
    apply IH. rewrite F1. exact P.
Qed.

(** [check_encoding_status] starts with the loop over the ledger's
    items. *)
Lemma check_encoding_status_loop ffjob_info items w :
  ledger_items ffjob_info items ->
  check_encoding_status E ffjob_info w =
  bind (status_loop E items 0)
       (fun total_encoded_time_seconds =>
          total <- lift (getitem ffjob_info "total_length_in_seconds") ;;
          encoded_time <- lift (format_time_delta total_encoded_time_seconds) ;;
          print (Shown "Total Encoded Time (hh:mm:ss):" encoded_time) ;;
          total_video_length <- lift (number total) ;;
          video_length <- lift (format_time_delta total_video_length) ;;
          print (Shown "Total Video Length (hh:mm:ss):" video_length) ;;
          completion <- lift (if Qeq_bool total_video_length 0
                              then Raise ZeroDivisionError
                              else Ok (Qred (total_encoded_time_seconds
                                             / total_video_length * 100))) ;;
          print (Shown "Completion (%):" (PNum completion)) ;;
          executed <- lift (getitem ffjob_info "executed_datetime") ;;
          elapsed_time <- lift (match executed with
                                | PStr s =>
                                    match elapsed_since E s with
                                    | Some d => Ok d
                                    | None => Raise ValueError
                                    end
                                | _ => Raise TypeError
                                end) ;;
          print (Shown "Total Encoding Time:" (PNum elapsed_time))) w.
Proof.
  intros L. unfold check_encoding_status.
  rewrite bind_lift, L, bind_lift. reflexivity.
Qed.

(** An item whose log does not parse aborts the whole report. *)
Lemma check_encoding_status_raises ffjob_info pre chapter post title ex w :
  ledger_items ffjob_info (pre ++ chapter :: post) ->
  getitem chapter "title" = Ok title ->
  log_parse E (files w) (log_of E title) = Raise ex ->
  exists e w', check_encoding_status E ffjob_info w = (Raise e, w').
Proof.
  intros L T P. rewrite (check_encoding_status_loop _ _ _ L).
  destruct (status_loop_raises pre chapter post title ex T 0 w P)
    as (e & w' & H).
  exists e, w'. apply bind_raise. exact H.
Qed.

(** In status mode [main] loads the ledger and reports on it. *)
Lemma main_status input_file svt_av1_params preset crf w text ffjob_info :
  assoc (resolve E "ffjob.json") (files w) = Some text ->
  json_load E text = Some ffjob_info ->
  main E input_file svt_av1_params preset crf true false w
  = check_encoding_status E ffjob_info w.
Proof.
  intros F J. unfold main.
  apply bind_ok. unfold get_ffjob_info, try_except, bind, open_read, lift, load.
  rewrite F, J. reflexivity.
Qed.

End StatusLoop.

(** ** Claims about the status reporter *)

(** C6: when the log file of an item exists and has zero lines, parsing
    it succeeds: it returns the speed ["N/A"] (unknown) and the time
    ["00:00:00.00"], which counts as zero encoded seconds; nothing is
    changed and nothing is raised. *)
Theorem empty_log_parses_as_not_started :
  forall (E : env) (w : world) (log_filename text : string),
    assoc (resolve E log_filename) (files w) = Some text ->
    readlines text = [] ->
    parse_log_file E log_filename w = (Ok ("N/A", "00:00:00.00"), w)
    /\ exists secs, encoded_seconds "00:00:00.00" = Ok secs /\ secs == 0.
Proof.
  intros E w log_filename text F L. split.
  - rewrite parse_log_file_pure, (log_parse_empty E _ _ _ F L). reflexivity.
  - eexists. split; [vm_compute; reflexivity | reflexivity].
Qed.

Lemma empty_log_parses_as_not_started_witness :
  parse_log_file Demo.reporter "log/Part_One.log"
                 (Demo.with_logs [("/work/log/Part_One.log", "")])
  = (Ok ("N/A", "00:00:00.00"), Demo.with_logs [("/work/log/Part_One.log", "")]).
Proof.
  apply (proj1 (empty_log_parses_as_not_started
                  Demo.reporter
                  (Demo.with_logs [("/work/log/Part_One.log", "")])
                  "log/Part_One.log" "" eq_refl eq_refl)).
Defined.

(** C7: when the log of an item is not empty and its last line lacks the
    marker [fps=] or the marker [time=], parsing it raises [IndexError]
    ([UnicodeDecodeError] when the log cannot even be decoded); the
    status report of any ledger that lists the item is aborted by an
    exception, and in status mode the script ends with it (exit status
    1).  No value is made up for the item. *)
Theorem missing_marker_is_a_hard_failure :
  forall (E : env) (w : world) (title : pyval) (text : string),
    assoc (resolve E (log_of E title)) (files w) = Some text ->
    readlines text <> [] ->
    ~ PyStr.occurs "fps=" (List.last (readlines text) EmptyString)
    \/ ~ PyStr.occurs "time=" (List.last (readlines text) EmptyString) ->
    parse_log_file E (log_of E title) w
    = (Raise (if utf8_valid text then IndexError else UnicodeDecodeError), w)
    /\ forall ffjob_info pre chapter post,
        ledger_items ffjob_info (pre ++ chapter :: post) ->
        getitem chapter "title" = Ok title ->
        (exists e w', check_encoding_status E ffjob_info w = (Raise e, w'))
        /\ forall ledger_text input_file svt_av1_params preset crf,
            assoc (resolve E "ffjob.json") (files w) = Some ledger_text ->
            json_load E ledger_text = Some ffjob_info ->
            exists e w',
              main E input_file svt_av1_params preset crf true false w
              = (Raise e, w')
              /\ exit_status
                   (fst (main E input_file svt_av1_params preset crf true false w))
                 = 1%Z.
Proof.
  intros E w title text F L A.
  assert (log_parse E (files w) (log_of E title)
          = Raise (if utf8_valid text then IndexError else UnicodeDecodeError))
    as P.
  { destruct (utf8_valid text) eqn:U.
    - exact (log_parse_markers_absent E _ _ _ F U L A).
    - exact (log_parse_undecodable E _ _ _ F U). }
  split.
  - rewrite parse_log_file_pure, P. reflexivity.
  - intros ffjob_info pre chapter post Hl Ht.
    destruct (check_encoding_status_raises E _ _ _ _ _ _ w Hl Ht P)
      as (e & w' & H).
    split; [eauto|].
    intros ledger_text input_file svt preset crf Hf Hj.
    exists e, w'. rewrite (main_status E _ _ _ _ _ _ _ Hf Hj), H. auto.
Qed.

Lemma missing_marker_is_a_hard_failure_witness :
  parse_log_file Demo.reporter (log_of Demo.reporter (PStr "Part_One"))
                 (Demo.with_logs [("/work/log/Part_One.log", "Press [q] to stop")])
  = (Raise IndexError,
     Demo.with_logs [("/work/log/Part_One.log", "Press [q] to stop")]).
Proof.
  refine (proj1 (missing_marker_is_a_hard_failure
                   Demo.reporter
                   (Demo.with_logs [("/work/log/Part_One.log", "Press [q] to stop")])
                   (PStr "Part_One") "Press [q] to stop" eq_refl _ _)).
  - vm_compute. discriminate.
  - left. apply PyStrFacts.partition_none_iff. vm_compute. reflexivity.
Defined.

(** C9: when the ledger lists an item whose log file does not exist,
    parsing it raises [FileNotFoundError] instead of giving the values of
    an empty log; the status report is aborted by an exception, and in
    status mode the script ends with it (exit status 1). *)
Theorem missing_log_file_aborts_the_report :
  forall (E : env) (w : world) (title : pyval),
    assoc (resolve E (log_of E title)) (files w) = None ->
    parse_log_file E (log_of E title) w = (Raise FileNotFoundError, w)
    /\ forall ffjob_info pre chapter post,
        ledger_items ffjob_info (pre ++ chapter :: post) ->
        getitem chapter "title" = Ok title ->
        (exists e w', check_encoding_status E ffjob_info w = (Raise e, w'))
        /\ (Forall (fun c => exists secs, item_seconds E (files w) c secs) pre ->
            (exists command, getitem chapter "command" = Ok command) ->
            exists w', check_encoding_status E ffjob_info w
                       = (Raise FileNotFoundError, w'))
        /\ forall ledger_text input_file svt_av1_params preset crf,
            assoc (resolve E "ffjob.json") (files w) = Some ledger_text ->
            json_load E ledger_text = Some ffjob_info ->
            exists e w',
              main E input_file svt_av1_params preset crf true false w
              = (Raise e, w')
              /\ exit_status
                   (fst (main E input_file svt_av1_params preset crf true false w))
                 = 1%Z.
Proof.
  intros E w title F.
  pose proof (log_parse_missing E _ _ F) as P.
  split.
  - rewrite parse_log_file_pure, P. reflexivity.
  - intros ffjob_info pre chapter post Hl Ht.
    destruct (check_encoding_status_raises E _ _ _ _ _ _ w Hl Ht P)
      as (e & w' & H).
    split; [eauto|]. split.
    + intros Hpre [command Hc].
      rewrite (check_encoding_status_loop E _ _ _ Hl).
      assert (exists secs, Forall2 (item_seconds E (files w)) pre secs)
        as [secs Hs].
      { clear - Hpre. induction Hpre as [|c pre [s Hc] _ [secs IH]].
        - exists []. constructor.
        - exists (s :: secs). constructor; assumption. }
      clear - Hs Ht Hc P.
      enough (forall acc w0, files w0 = files w ->
                exists w', status_loop E (pre ++ chapter :: post) acc w0
                           = (Raise FileNotFoundError, w')) as G.
      { destruct (G 0 w eq_refl) as [w' Hw]. exists w'.
        apply bind_raise. exact Hw. }
      induction Hs as [|c s pre secs Hc' _ IH]; intros acc w0 Hw0.
      * simpl app. apply (status_loop_item_raises E _ _ _ _ title command);
          [assumption | assumption | rewrite Hw0; exact P].
      * simpl app. rewrite <- Hw0 in Hc'.
        destruct (status_loop_item E c (pre ++ chapter :: post) acc w0 s Hc')
          as (w1 & F1 & _ & _ & _ & ->).
        apply IH. congruence.
    + intros ledger_text input_file svt preset crf Hf Hj.
      exists e, w'. rewrite (main_status E _ _ _ _ _ _ _ Hf Hj), H. auto.
Qed.

Lemma missing_log_file_aborts_the_report_witness :
  parse_log_file Demo.reporter (log_of Demo.reporter (PStr "Part_Two"))
                 (Demo.with_logs [("/work/log/Part_One.log", "")])
  = (Raise FileNotFoundError, Demo.with_logs [("/work/log/Part_One.log", "")]).
Proof.
  apply (proj1 (missing_log_file_aborts_the_report
                  Demo.reporter
                  (Demo.with_logs [("/work/log/Part_One.log", "")])
                  (PStr "Part_Two") eq_refl)).
Defined.

Lemma completion_above_100 (encoded total : Q) :
  0 < total -> total < encoded -> 100 < encoded / total * 100.
Proof.
  intros Hpos Hlt.
  assert (1 < encoded / total) as H1.
  { apply Qlt_shift_div_l; [exact Hpos|]. rewrite Qmult_1_l. exact Hlt. }
  setoid_replace 100 with (1 * 100) at 1 by reflexivity.
  apply Qmult_lt_r; [reflexivity | exact H1].
Qed.

(** C3: for a ledger whose total length is positive and whose items all
    have a log that parses.  When the summed encoded seconds and the
    total length are both within the range of a [timedelta], the status
    reporter shows exactly one completion percentage, equal to the sum
    of the items' encoded seconds divided by the total length, times
    100; the value is not clamped: when the sum exceeds the total length
    it is above 100.  When one of the two is out of that range, the
    reporter raises [OverflowError] and shows no percentage. *)
Theorem completion_percentage_is_unclamped :
  forall (E : env) (w : world) (ffjob_info : pyval) (items : list pyval)
         (secs : list Q) (total : Q),
    ledger_items ffjob_info items ->
    Forall2 (item_seconds E (files w)) items secs ->
    getitem ffjob_info "total_length_in_seconds" = Ok (PNum total) ->
    0 < total ->
    (timedelta_ok (int_of (total_seconds secs)) = true ->
     timedelta_ok (int_of total) = true ->
     exists pct,
       completions (stdout (snd (check_encoding_status E ffjob_info w)))
       = completions (stdout w) ++ [PNum pct]
       /\ pct == total_seconds secs / total * 100
       /\ (total < total_seconds secs -> 100 < pct))
    /\ (timedelta_ok (int_of (total_seconds secs)) = false
        \/ timedelta_ok (int_of total) = false ->
        exists w',
          check_encoding_status E ffjob_info w = (Raise OverflowError, w')
          /\ completions (stdout w') = completions (stdout w)).
Proof.
  intros E w ffjob_info items secs total L F T Hpos.
  destruct (status_loop_ok E items secs 0 w F) as (w1 & _ & _ & _ & C1 & H).
  change (fold_left Qplus secs 0) with (total_seconds secs) in H.
  split.
  - intros R1 R2.
    exists (Qred (total_seconds secs / total * 100)).
    split; [|split].
    + rewrite (check_encoding_status_loop E _ _ _ L).
      rewrite (bind_ok _ _ _ _ _ H).
      rewrite bind_lift, T, bind_lift. unfold format_time_delta. rewrite R1.
      rewrite bind_print, bind_lift. cbn [number].
      rewrite bind_lift, R2, bind_print, bind_lift.
      assert (Qeq_bool total 0 = false) as ->.
      { destruct (Qeq_bool total 0) eqn:Z; [|reflexivity].
        apply Qeq_bool_eq in Z. rewrite Z in Hpos.
        exfalso. exact (Qlt_irrefl 0 Hpos). }
      rewrite bind_print, bind_lift.
      assert (forall w2 : world,
                completions (stdout w2) = completions (stdout w) ++
                  [PNum (Qred (total_seconds secs / total * 100))] ->
                forall r : result Q,
                  completions (stdout (snd
                    (match r with
                     | Ok a => print (Shown "Total Encoding Time:" (PNum a)) w2
                     | Raise e => (Raise e, w2)
                     | Exit c => (Exit c, w2)
                     end))) = completions (stdout w) ++
                  [PNum (Qred (total_seconds secs / total * 100))]) as Tail.
      { intros w2 H2 [a|e|c]; simpl; [|exact H2|exact H2].
        rewrite completions_app, H2. simpl. rewrite app_nil_r. reflexivity. }
      match goal with
      | |- context [mkWorld ?f ?d ?p ?o] =>
          assert (completions o = completions (stdout w) ++
                    [PNum (Qred (total_seconds secs / total * 100))]) as H2
      end.
      { cbn [stdout]. rewrite !completions_app, C1. simpl.
        rewrite !app_nil_r. reflexivity. }
      destruct (getitem ffjob_info "executed_datetime") as [executed|e|c];
        [| exact H2 | exact H2].
      rewrite bind_lift. apply Tail. exact H2.
    + apply Qred_correct.
    + intros Hlt. rewrite Qred_correct. apply completion_above_100; assumption.
  - intros R.
    rewrite (check_encoding_status_loop E _ _ _ L).
    rewrite (bind_ok _ _ _ _ _ H).
    rewrite bind_lift, T, bind_lift. unfold format_time_delta.
    destruct (timedelta_ok (int_of (total_seconds secs))) eqn:R1.
    + destruct R as [R|R]; [discriminate|].
      rewrite bind_print, bind_lift. cbn [number].
      rewrite bind_lift, R.
      eexists. split; [reflexivity|].
      cbn [stdout]. rewrite completions_app, C1. simpl.
      apply app_nil_r.
    + exists w1. split; [reflexivity | exact C1].
Qed.

Lemma completion_percentage_is_unclamped_witness :
  exists pct,
    completions (stdout (snd (check_encoding_status Demo.reporter Demo.two_items
                                                    Demo.both_done)))
    = [PNum pct]
    /\ pct == 100.
Proof.
  destruct (completion_percentage_is_unclamped
              Demo.reporter Demo.both_done Demo.two_items
              [Demo.work "Part_One" 10; Demo.work "Part_Two" 15]
              [10; 15] 25 eq_refl) as [H _].
  - repeat constructor;
      eexists _, _, _, _; (split; [|split; [|split]]); reflexivity.
  - reflexivity.
  - reflexivity.
  - destruct (H eq_refl eq_refl) as (pct & H1 & H2 & _).
    exists pct. split; [exact H1 | rewrite H2; reflexivity].
Defined.

(** A ledger with a positive total length of 86400000000000 seconds,
    which is one day more than a [timedelta] holds: both logs parse, and
    the report ends with [OverflowError] before it has shown a
    percentage. *)
Lemma huge_total_shows_no_percentage :
  getitem (Demo.ledger_of_length 86400000000000) "total_length_in_seconds"
  = Ok (PNum 86400000000000)
  /\ 0 < 86400000000000
  /\ fst (status_loop Demo.reporter
                      [Demo.work "Part_One" 10; Demo.work "Part_Two" 15] 0
                      Demo.both_done) = Ok 25
  /\ fst (check_encoding_status Demo.reporter
                                (Demo.ledger_of_length 86400000000000)
                                Demo.both_done)
     = Raise OverflowError
  /\ completions
       (stdout (snd (check_encoding_status Demo.reporter
                                           (Demo.ledger_of_length 86400000000000)
                                           Demo.both_done)))
     = [].
Proof. vm_compute. repeat split; reflexivity. Qed.

(** The same ledger when the second encoder reports more than its
    chapter: the percentage goes above 100. *)
Example completion_of_an_overrun :
  completions
    (stdout (snd (check_encoding_status
                    Demo.reporter Demo.two_items
                    (Demo.with_logs
                       [("/work/log/Part_One.log", Demo.progress "00:00:10.00");
                        ("/work/log/Part_Two.log", Demo.progress "00:00:20.00")]))))
  = [PNum 120].
Proof. vm_compute. reflexivity. Qed.

(** ** Claims about the planner *)

Section Planner.

Variable E : env.
Variables (input_file svt_av1_params preset crf : string).

Lemma work_item_valid chapter raw_title start_time end_time
      start_seconds end_seconds :
  chapter_fields chapter raw_title start_time end_time
                 start_seconds end_seconds ->
  exists command,
    work_item E chapter (Some input_file) svt_av1_params preset crf
    = Ok (PDict [("title", PStr (PyStr.replace " "%char "_" raw_title));
                 ("length_in_seconds",
                  PNum (Qred (end_seconds - start_seconds)));
                 ("command", PList command)]).
Proof.
  intros ((tags & Htags & Htitle) & Hs & He & Hfs & Hfe).
  unfold work_item. rewrite Htags. cbn [rbind]. rewrite Htitle.
  cbn [rbind replace_spaces]. rewrite Hs. cbn [rbind]. rewrite He.
  cbn [rbind get_abs_path_arg]. rewrite Hfe. cbn [rbind].
  rewrite Hfs. cbn [rbind]. eexists. reflexivity.
Qed.

Lemma work_item_planned chapter :
  valid_chapter chapter ->
  exists item,
    work_item E chapter (Some input_file) svt_av1_params preset crf = Ok item
    /\ planned chapter item.
Proof.
  intros (raw & s & e & qs & qe & H).
  destruct (work_item_valid _ _ _ _ _ _ H) as [command Hw].
  eexists. split; [exact Hw|].
  exists raw, s, e, qs, qe. split; [exact H|]. split; [reflexivity|].
  eexists. split; [reflexivity|]. apply Qred_correct.
Qed.

Lemma work_items_planned chapters :
  Forall valid_chapter chapters ->
  exists items,
    work_items E chapters (Some input_file) svt_av1_params preset crf = Ok items
    /\ Forall2 planned chapters items.
Proof.
  induction 1 as [|chapter chapters Hc _ [items [Hi Hp]]].
  - exists []. split; [reflexivity | constructor].
  - destruct (work_item_planned chapter Hc) as (item & Hw & Hpl).
    exists (item :: items). split.
    + cbn [work_items]. rewrite Hw. cbn [rbind]. rewrite Hi. reflexivity.
    + constructor; assumption.
Qed.

End Planner.

(** C4, amended: for a valid chapter list of length N the planner
    returns exactly N work items, in order; the title of each is the raw
    chapter title with every space character replaced by an underscore
    (other whitespace is kept), and its length is end minus start. *)
Theorem planner_makes_one_item_per_chapter :
  forall (E : env) (w : world) (chapters : list pyval)
         (input_file svt_av1_params preset crf : string),
    Forall valid_chapter chapters ->
    exists items,
      generate_ffmpeg_commands E (PList chapters) (Some input_file)
                               svt_av1_params preset crf w
      = (Ok items,
         mkWorld (files w) (dirs w) (procs w)
                 (stdout w ++ [Shown "" (PList items)]))
      /\ List.length items = List.length chapters
      /\ Forall2 planned chapters items.
Proof.
  intros E w chapters input_file svt preset crf V.
  destruct (work_items_planned E input_file svt preset crf chapters V)
    as (items & Hi & Hp).
  exists items. split; [|split].
  - unfold generate_ffmpeg_commands. rewrite bind_lift. cbn [iterate].
    rewrite bind_lift, Hi. reflexivity.
  - symmetry. apply (Forall2_length Hp).
  - exact Hp.
Qed.

Lemma planner_makes_one_item_per_chapter_witness :
  exists items,
    generate_ffmpeg_commands
      Demo.planner
      (PList [Demo.chapter "Part One" "0.000000" "10.000000";
              Demo.chapter "Part Two" "10.000000" "25.000000"])
      (Some "movie.mkv") "tune=0" "1" "16" Demo.empty_world
    = (Ok items,
       mkWorld [] [] [] [Shown "" (PList items)])
    /\ List.length items = 2%nat.
Proof.
  destruct (planner_makes_one_item_per_chapter
              Demo.planner Demo.empty_world
              [Demo.chapter "Part One" "0.000000" "10.000000";
               Demo.chapter "Part Two" "10.000000" "25.000000"]
              "movie.mkv" "tune=0" "1" "16") as (items & H & L & _).
  - repeat constructor;
      eexists _, _, _, _, _;
      (split; [eexists; split; reflexivity|]);
      (split; [|split; [|split]]); reflexivity.
  - exists items. split; [exact H | exact L].
Defined.

(** C4 as stated fails: a tab is whitespace, and the planner keeps it. *)
Lemma planner_keeps_a_tab :
  exists item,
    work_items Demo.planner [Demo.chapter Demo.tabbed_title "0.000000" "10.000000"]
               (Some "movie.mkv") "tune=0" "1" "16"
    = Ok [item]
    /\ getitem item "title" = Ok (PStr Demo.tabbed_title)
    /\ replace_whitespace Demo.tabbed_title = "Part_One"
    /\ getitem item "title" <> Ok (PStr (replace_whitespace Demo.tabbed_title)).
Proof.
  eexists. split; [vm_compute; reflexivity|].
  split; [reflexivity|]. split; [reflexivity|].
  vm_compute. discriminate.
Qed.

(** ** Sorting *)

Section Sorting.
















End Sorting.

(** ** Paths and files *)

Section Paths.

Lemma append_assoc (a b c : string) :
  ((a ++ b) ++ c = a ++ (b ++ c))%string.
Proof. induction a as [|x a IH]; simpl; [|rewrite IH]; reflexivity. Qed.








Lemma assoc_set_same {A} k (v : A) d : assoc k (assoc_set k v d) = Some v.
Proof.
  induction d as [|[k' v'] d IH]; simpl.
  - rewrite String.eqb_refl. reflexivity.
  - destruct (String.eqb k' k) eqn:K; simpl.
    + rewrite String.eqb_refl. reflexivity.
    + rewrite K. exact IH.
Qed.


Lemma assoc_app_other {A} k k' (v : A) d :
  k <> k' -> assoc k (d ++ [(k', v)]) = assoc k d.
Proof.
  intros N. induction d as [|[k0 v0] d IH]; simpl.
  - destruct (String.eqb_spec k' k); [congruence | reflexivity].
  - destruct (String.eqb_spec k0 k); [reflexivity | exact IH].
Qed.

End Paths.

(** ** Claims about the finalizer *)

Section Finalizer.

Variable E : env.

Hypothesis manifest_writable : writable E (manifest_path E) = true.

(** The external tools leave the manifest as it is. *)
Hypothesis tools_keep_manifest :
  forall command fs returncode out err fs',
    run E command fs = Ran returncode out err fs' ->
    assoc (manifest_path E) fs' = assoc (manifest_path E) fs.

(** What glob returns to [concatenate_chapters]. *)
Lemma glob_mkv_tmp w :
  glob_mkv E (get_abs_path E "tmp") w = (Ok (globbed_outputs E w), w).
Proof. reflexivity. Qed.


End Finalizer.




(** C8: in a working directory named [Movies [2023]] that holds both
    chapter outputs, the finalizer's check finds them (its pattern
    [tmp/*.mkv] is relative), but [concatenate_chapters] gives glob the
    absolute path of tmp as a pattern, in which the brackets stand for
    one character: nothing matches, and the manifest that is written
    lists neither output.  The claim's order is not reached. *)
Theorem bracketed_directory_empties_the_manifest :
  chapter_outputs Demo.bracketed Demo.bracketed_encoded
  = ["Part_Two.mkv"; "Part_One.mkv"]
  /\ verify_chapter_files Demo.bracketed Demo.bracketed_encoded
     = (Ok tt,
        add_out Demo.bracketed_encoded
                [Text "[INFO] All chapter files found. Proceeding to concatenation."])
  /\ has_magic (get_abs_path Demo.bracketed "tmp") = true
  /\ assoc (manifest_path Demo.bracketed)
           (files (snd (concatenate_chapters Demo.bracketed
                                             Demo.bracketed_encoded)))
     = Some EmptyString.
Proof. vm_compute. repeat split; reflexivity. Qed.

(** ** Dispatch *)

Section Dispatch.

Variable E : env.

Lemma makedirs_ok path w :
  existsb (String.eqb (resolve E path)) (dirs w) = true
  \/ writable E (resolve E path) = true ->
  exists ds,
    makedirs E path w = (Ok tt, mkWorld (files w) (dirs w ++ ds) (procs w) (stdout w)).
Proof.
  intros H. unfold makedirs.
  destruct (existsb _ (dirs w)) eqn:X.
  - exists []. rewrite app_nil_r. destruct w; reflexivity.
  - destruct H as [H|H]; [discriminate|]. rewrite H. eexists. reflexivity.
Qed.

Lemma makedirs_print_ok path l w :
  existsb (String.eqb (resolve E path)) (dirs w) = true
  \/ writable E (resolve E path) = true ->
  exists ds,
    (makedirs E path ;; print l) w
    = (Ok tt, mkWorld (files w) (dirs w ++ ds) (procs w) (stdout w ++ [l])).
Proof.
  intros H. destruct (makedirs_ok path w H) as [ds Hm].
  exists ds. rewrite (bind_ok _ _ _ _ _ Hm). reflexivity.
Qed.

Lemma ensure_directories_exist_ok w :
  ready E w ->
  exists w1,
    ensure_directories_exist E w = (Ok tt, w1)
    /\ files w1 = files w /\ procs w1 = procs w.
Proof.
  intros R. unfold ensure_directories_exist. cbn [for_each].
  destruct (makedirs_print_ok
              (get_abs_path E "tmp")
              (Shown "[INFO] directory is ready." (PStr (get_abs_path E "tmp")))
              w) as [ds1 H1].
  { apply R. left. reflexivity. }
  rewrite (bind_ok _ _ _ _ _ H1).
  match goal with |- context [bind (bind (makedirs E ?p) (fun _ => print ?l)) _ ?w0] =>
    destruct (makedirs_print_ok p l w0) as [ds2 H2] end.
  { cbn [dirs]. destruct (R "log") as [X|X].
    - right. left. reflexivity.
    - left. rewrite existsb_app, X. reflexivity.
    - right. exact X. }
  rewrite (bind_ok _ _ _ _ _ H2).
  eexists. split; [reflexivity|]. split; reflexivity.
Qed.

Lemma run_ffprobe_ok input_file json_output fs' w w0 :
  probed E w input_file json_output fs' ->
  files w0 = files w ->
  exists w1,
    run_ffprobe E (Some input_file) w0 = (Ok json_output, w1)
    /\ files w1 = fs' /\ procs w1 = procs w0.
Proof.
  intros (out & err & Hr & Hj) F.
  unfold run_ffprobe, try_except. rewrite bind_print, bind_lift.
  cbn [get_abs_path_arg].
  unfold bind at 1. unfold subprocess_run at 1. cbn [files].
  rewrite F, Hr. cbn [Z.eqb]. unfold bind, ret, print, lift, loads.
  rewrite Hj. eexists. split; [reflexivity|]. split; reflexivity.
Qed.

(** In dispatch mode, when the metadata is read and the work items
    are made, [main] goes on to launch them. *)
Lemma main_dispatch_prefix input_file svt_av1_params preset crf w
      json_output fs' chapters total_length items :
  ready E w ->
  probed E w input_file json_output fs' ->
  metadata json_output (PList chapters) total_length ->
  work_items E chapters (Some input_file) svt_av1_params preset crf = Ok items ->
  exists w0,
    files w0 = fs' /\ procs w0 = procs w
    /\ main E (Some input_file) svt_av1_params preset crf false false w
       = dispatch_rest E items (Some input_file) total_length w0.
Proof.
  intros R P (Hc & format & duration & Hf & Hd & Hfl) Hi.
  unfold main. rewrite bind_print.
  destruct (ensure_directories_exist_ok
              (mkWorld (files w) (dirs w) (procs w)
                       (stdout w ++ [Text "[INFO] Script started. Preparing to process video file..."])) R)
    as (w1 & H1 & F1 & P1).
  rewrite (bind_ok _ _ _ _ _ H1).
  destruct (run_ffprobe_ok _ _ _ w w1 P F1) as (w2 & H2 & F2 & P2).
  rewrite (bind_ok _ _ _ _ _ H2).
  rewrite bind_lift, Hc, bind_lift, Hf. cbn [rbind]. rewrite Hd. cbn [rbind].
  rewrite Hfl, bind_lift. cbn [len]. rewrite bind_print.
  unfold generate_ffmpeg_commands at 1.
  unfold bind at 1. rewrite bind_lift. cbn [iterate].
  rewrite bind_lift, Hi, bind_print. unfold ret at 1.
  eexists. split; [|split; [|reflexivity]].
  - cbn [files]. exact F2.
  - cbn [procs] in *. congruence.
Qed.

End Dispatch.

(** ** The launcher and the ledger file *)

Section Launcher.

Variable E : env.

Lemma last_char_append a b :
  b <> EmptyString -> last_char (a ++ b) = last_char b.
Proof.
  intros N. induction a as [|c a IH]; [reflexivity|].
  simpl append. cbn [last_char]. destruct (a ++ b)%string eqn:Q.
  - destruct a; [simpl in Q; congruence | discriminate].
  - exact IH.
Qed.

Lemma last_char_path_join a b :
  b <> EmptyString -> last_char (path_join a b) = last_char b.
Proof.
  intros N. unfold path_join.
  destruct (prefix "/" b); [reflexivity|].
  destruct (String.eqb a EmptyString || PyStr.endswith a "/").
  - apply last_char_append. exact N.
  - rewrite last_char_append.
    + destruct b; [congruence | reflexivity].
    + discriminate.
Qed.

Lemma last_char_some_nonempty s c : last_char s = Some c -> s <> EmptyString.
Proof. intros H ->. discriminate. Qed.

(** Every log file has a path that ends in [g]. *)
Lemma log_path_last_char title :
  last_char (resolve E (log_of E title)) = Some "g"%char.
Proof.
  assert (last_char (fmt E title ++ ".log") = Some "g"%char) as L
      by (rewrite last_char_append; [reflexivity | discriminate]).
  assert (last_char (log_of E title) = Some "g"%char) as L2.
  { unfold log_of. rewrite last_char_path_join; [exact L|].
    exact (last_char_some_nonempty _ _ L). }
  unfold resolve. rewrite last_char_path_join; [exact L2|].
  exact (last_char_some_nonempty _ _ L2).
Qed.

(** The ledger file has a path that ends in [n]. *)
Lemma ledger_path_last_char :
  last_char (resolve E "ffjob.json") = Some "n"%char.
Proof.
  unfold resolve. rewrite last_char_path_join; [reflexivity | discriminate].
Qed.

(** Launching a work item always returns; it starts the job of the
    item and touches no file but the item's log. *)
Lemma execute_ffmpeg_command_built item w :
  built_item item ->
  exists w1,
    execute_ffmpeg_command E item w = (Ok tt, w1)
    /\ procs w1 = procs w ++ job_of E item
    /\ forall path,
        last_char path <> Some "g"%char ->
        assoc path (files w1) = assoc path (files w).
Proof.
  intros (title & len & command & Heq).
  assert (getitem item "title" = Ok (PStr title)) as Ht
      by (rewrite Heq; reflexivity).
  assert (getitem item "command" = Ok (PList command)) as Hc
      by (rewrite Heq; reflexivity).
  clear Heq. unfold execute_ffmpeg_command, job_of. rewrite Ht, Hc.
  unfold try_except. rewrite bind_lift.
  fold (log_of E (PStr title)).
  unfold bind at 1. unfold open_append at 1.
  destruct (writable E (resolve E (log_of E (PStr title)))) eqn:W.
  - assert (forall fs : list (string * string),
               fs = files w \/
               fs = files w ++ [(resolve E (log_of E (PStr title)), EmptyString)] ->
               forall path,
                 last_char path <> Some "g"%char ->
                 assoc path fs = assoc path (files w)) as Keep.
    { intros fs [->| ->] path Hp; [reflexivity|].
      apply assoc_app_other. intros ->.
      apply Hp. apply log_path_last_char. }
    destruct (assoc _ (files w)) as [text|];
      unfold bind, subprocess_Popen, print;
      destruct (popen E (PList command)); cbn [andb];
        eexists; (split; [reflexivity|]); cbn [procs files set_files];
        (split; [try reflexivity; rewrite app_nil_r; reflexivity|]);
        apply Keep; cbn [files set_files]; auto.
  - cbn [andb]. unfold print. eexists. split; [reflexivity|].
    cbn [procs files]. split; [rewrite app_nil_r; reflexivity | reflexivity].
Qed.

Lemma work_item_built chapter input_file svt_av1_params preset crf item :
  work_item E chapter input_file svt_av1_params preset crf = Ok item ->
  built_item item.
Proof.
  unfold work_item.
  repeat match goal with
         | |- context [rbind ?r _] =>
             destruct r eqn:?; cbn [rbind]; try discriminate
         end.
  intros H. injection H as <-. eexists _, _, _. reflexivity.
Qed.

Lemma work_items_built chapters input_file svt_av1_params preset crf :
  forall items,
    work_items E chapters input_file svt_av1_params preset crf = Ok items ->
    Forall built_item items.
Proof.
  induction chapters as [|c chapters IH]; intros items H.
  - injection H as <-. constructor.
  - cbn [work_items] in H.
    destruct (work_item E c input_file svt_av1_params preset crf) as [item| |] eqn:W;
      cbn [rbind] in H; try discriminate.
    destruct (work_items E chapters input_file svt_av1_params preset crf)
      as [rest| |]; cbn [rbind] in H; try discriminate.
    injection H as <-. constructor.
    + exact (work_item_built _ _ _ _ _ _ W).
    + apply IH. reflexivity.
Qed.

(** The launch loop always returns; the processes it adds are the jobs
    of the items, and it touches no file but the logs. *)
Lemma launch_loop items :
  Forall built_item items ->
  forall w,
    exists w1,
      for_each items (fun chapter_info =>
        title <- lift (getitem chapter_info "title") ;;
        print (Shown "Generated command for encoding" title) ;;
        execute_ffmpeg_command E chapter_info) w = (Ok tt, w1)
      /\ procs w1 = procs w ++ launched E items
      /\ forall path,
          last_char path <> Some "g"%char ->
          assoc path (files w1) = assoc path (files w).
Proof.
  induction 1 as [|item items Hb _ IH]; intros w.
  - exists w. cbn [for_each launched flat_map]. rewrite app_nil_r.
    split; [reflexivity|]. split; reflexivity.
  - cbn [for_each].
    destruct Hb as (title & len & command & Heq).
    assert (getitem item "title" = Ok (PStr title)) as Ht
        by (rewrite Heq; reflexivity).
    match goal with |- context [bind ?body ?k w] =>
      assert (exists w1, body w = (Ok tt, w1)
                         /\ procs w1 = procs w ++ job_of E item
                         /\ forall path,
                             last_char path <> Some "g"%char ->
                             assoc path (files w1) = assoc path (files w))
        as (w1 & H1 & P1 & F1)
    end.
    { rewrite bind_lift, Ht, bind_print.
      match goal with |- context [execute_ffmpeg_command E item ?w0] =>
        destruct (execute_ffmpeg_command_built item w0) as (w1 & H1 & P1 & F1)
      end.
      - exists title, len, command. exact Heq.
      - exists w1. split; [exact H1|]. split; [exact P1 | exact F1]. }
    rewrite (bind_ok _ _ _ _ _ H1).
    destruct (IH w1) as (w2 & H2 & P2 & F2).
    exists w2. split; [exact H2|]. split.
    + rewrite P2, P1. cbn [launched flat_map]. rewrite app_assoc. reflexivity.
    + intros path Hp. rewrite (F2 path Hp). apply F1. exact Hp.
Qed.

(** When the ledger file cannot be written, [save_ffjob_info] reports
    it and returns; no file is changed. *)
Lemma save_ffjob_info_unwritable d input_file total_length w :
  writable E (resolve E "ffjob.json") = false ->
  exists saved,
    save_ffjob_info E (PDict d) input_file total_length w
    = (Ok saved,
       mkWorld (files w) (dirs w) (procs w)
               (stdout w ++ [Failed "[ERROR] Failed to save job information:"
                                    PermissionError])).
Proof.
  intros W. unfold save_ffjob_info. cbn [setitem].
  unfold try_except, bind, open_write. rewrite W.
  eexists. reflexivity.
Qed.

(** When it can be written, the ledger of the work items is in the
    file afterwards. *)
Lemma save_ffjob_info_writable items input_file total_length w :
  writable E (resolve E "ffjob.json") = true ->
  save_ffjob_info E (PDict [("chapters", PList items)]) input_file total_length w
  = (Ok (ledger_of E items total_length),
     mkWorld (assoc_set (resolve E "ffjob.json")
                        (json_dump E (ledger_of E items total_length))
                        (files w))
             (dirs w) (procs w)
             (stdout w ++ [Text "[SUCCESS] Saved job information to ffjob.json"])).
Proof.
  intros W. unfold save_ffjob_info. cbn [setitem].
  unfold try_except, bind, open_write. rewrite W. reflexivity.
Qed.

End Launcher.

(** ** Claims about dispatch *)

(** C10: when ffprobe has delivered the metadata and the work items are
    made, a ledger file that cannot be written does not stop dispatch:
    [save_ffjob_info] prints a diagnostic, [main] returns normally (exit
    status 0), the ledger file is as it was before (nothing persisted),
    and the processes of the launched jobs are still there. *)
Theorem ledger_write_failure_is_not_fatal :
  forall (E : env) (w : world) (input_file svt_av1_params preset crf : string)
         (json_output : pyval) (fs' : list (string * string))
         (chapters : list pyval) (total_length : Q) (items : list pyval),
    ready E w ->
    probed E w input_file json_output fs' ->
    metadata json_output (PList chapters) total_length ->
    work_items E chapters (Some input_file) svt_av1_params preset crf = Ok items ->
    writable E (resolve E "ffjob.json") = false ->
    exists w',
      main E (Some input_file) svt_av1_params preset crf false false w = (Ok tt, w')
      /\ exit_status
           (fst (main E (Some input_file) svt_av1_params preset crf false false w))
         = 0%Z
      /\ In (Failed "[ERROR] Failed to save job information:" PermissionError)
            (stdout w')
      /\ assoc (resolve E "ffjob.json") (files w')
         = assoc (resolve E "ffjob.json") fs'
      /\ procs w' = procs w ++ launched E items.
Proof.
  intros E w input_file svt preset crf json_output fs' chapters total items
         R P Md Hi W.
  destruct (main_dispatch_prefix E _ _ _ _ _ _ _ _ _ _ R P Md Hi)
    as (w0 & F0 & P0 & ->).
  unfold dispatch_rest.
  destruct (launch_loop E items (work_items_built E _ _ _ _ _ _ Hi) w0)
    as (w1 & H1 & P1 & F1).
  rewrite (bind_ok _ _ _ _ _ H1).
  destruct (save_ffjob_info_unwritable
              E [("chapters", PList items)] (Some input_file) total w1 W)
    as (saved & Hs).
  rewrite (bind_ok _ _ _ _ _ Hs). unfold print.
  eexists. split; [reflexivity|]. cbn [fst exit_status stdout files procs].
  split; [reflexivity|]. split; [|split].
  - apply in_or_app. left. apply in_or_app. right. left. reflexivity.
  - rewrite <- F0. apply F1. rewrite ledger_path_last_char. discriminate.
  - rewrite P1, P0. reflexivity.
Qed.

Lemma ledger_write_failure_is_not_fatal_witness :
  exists w',
    main (Demo.dispatcher Demo.two_chapters Demo.ledger_locked)
         (Some "movie.mkv") "tune=0" "1" "16" false false Demo.empty_world
    = (Ok tt, w')
    /\ assoc "/work/ffjob.json" (files w') = None
    /\ List.length (procs w') = 2%nat.
Proof.
  edestruct (ledger_write_failure_is_not_fatal
               (Demo.dispatcher Demo.two_chapters Demo.ledger_locked)
               Demo.empty_world "movie.mkv" "tune=0" "1" "16"
               Demo.two_chapters [])
    as (w' & H & _ & _ & F & P).
  - intros dir [<-|[<-|[]]]; right; reflexivity.
  - eexists _, _. split; reflexivity.
  - split; [reflexivity|]. eexists _, _. repeat split; reflexivity.
  - vm_compute. reflexivity.
  - reflexivity.
  - exists w'. split; [exact H|]. split; [exact F|].
    rewrite P. reflexivity.
Defined.

(** C1, amended: in dispatch mode, when the metadata lists zero
    chapters, dispatch does not fail.  It launches no job, writes a
    ledger with an empty item list when the ledger file can be written,
    and [main] returns normally. *)
Theorem zero_chapters_dispatch_completes :
  forall (E : env) (w : world) (input_file svt_av1_params preset crf : string)
         (json_output : pyval) (fs' : list (string * string)) (total_length : Q),
    ready E w ->
    probed E w input_file json_output fs' ->
    metadata json_output (PList []) total_length ->
    exists w',
      main E (Some input_file) svt_av1_params preset crf false false w = (Ok tt, w')
      /\ procs w' = procs w
      /\ (writable E (resolve E "ffjob.json") = true ->
          assoc (resolve E "ffjob.json") (files w')
          = Some (json_dump E (ledger_of E [] total_length))).
Proof.
  intros E w input_file svt preset crf json_output fs' total R P Md.
  destruct (main_dispatch_prefix E _ svt preset crf _ _ _ _ _ [] R P Md eq_refl)
    as (w0 & F0 & P0 & ->).
  unfold dispatch_rest. cbn [for_each].
  rewrite (bind_ok (ret tt) _ w0 tt w0 eq_refl).
  destruct (writable E (resolve E "ffjob.json")) eqn:W.
  - rewrite (bind_ok _ _ _ _ _ (save_ffjob_info_writable E [] _ total w0 W)).
    unfold print. eexists. split; [reflexivity|]. cbn [procs files].
    split; [exact P0|]. intros _. apply assoc_set_same.
  - destruct (save_ffjob_info_unwritable
                E [("chapters", PList [])] (Some input_file) total w0 W)
      as (saved & Hs).
    rewrite (bind_ok _ _ _ _ _ Hs). unfold print.
    eexists. split; [reflexivity|]. cbn [procs].
    split; [exact P0 | discriminate].
Qed.

Lemma zero_chapters_dispatch_completes_witness :
  exists w',
    main (Demo.dispatcher Demo.no_chapters (fun _ => true))
         (Some "movie.mkv") "tune=0" "1" "16" false false Demo.empty_world
    = (Ok tt, w')
    /\ procs w' = [].
Proof.
  edestruct (zero_chapters_dispatch_completes
               (Demo.dispatcher Demo.no_chapters (fun _ => true))
               Demo.empty_world "movie.mkv" "tune=0" "1" "16"
               Demo.no_chapters [])
    as (w' & H & P & _).
  - intros dir [<-|[<-|[]]]; right; reflexivity.
  - eexists _, _. split; reflexivity.
  - split; [reflexivity|]. eexists _, _. repeat split; reflexivity.
  - exists w'. split; [exact H | exact P].
Defined.

(** C1 as stated fails: with zero chapters dispatch returns normally and
    has written a ledger. *)
Lemma zero_chapters_dispatch_writes_a_ledger :
  let r := main (Demo.dispatcher Demo.no_chapters (fun _ => true))
                (Some "movie.mkv") "tune=0" "1" "16" false false
                Demo.empty_world in
  fst r = Ok tt
  /\ exit_status (fst r) = 0%Z
  /\ assoc "/work/ffjob.json" (files (snd r))
     = Some (Demo.dumps
               (PDict [("chapters", PList []);
                       ("total_length_in_seconds", PNum 25);
                       ("executed_datetime", PStr "2024-01-01 12:00:00")])).
Proof. vm_compute. repeat split. Qed.

(** C2, at the failing input: in finalize mode the user confirms the
    cleanup, and [main] returns with the ledger, the logs and the
    chapter outputs all still in place; [cleanup_directories], which the
    confirmed branch does not call, removes them from that same state. *)
Theorem confirmed_cleanup_removes_nothing :
  let E := Demo.finalizer "yes" in
  let r := main E (Some "movie.mkv") "tune=0" "1" "16" false true Demo.encoded in
  let kept := ["/work/ffjob.json"; "/work/log/Part_One.log";
               "/work/log/Part_Two.log"; "/work/tmp/Part_One.mkv";
               "/work/tmp/Part_Two.mkv"] in
  fst r = Ok tt
  /\ forallb (fun path => match assoc path (files (snd r)) with
                          | Some _ => true
                          | None => false
                          end) kept = true
  /\ forallb (fun path => match assoc path (files (snd (cleanup_directories E (snd r)))) with
                          | Some _ => false
                          | None => true
                          end) kept = true.
Proof. vm_compute. repeat split. Qed.

(** Declining the cleanup is not an error and removes nothing either. *)
Example declined_cleanup_removes_nothing :
  let E := Demo.finalizer "no" in
  let r := main E (Some "movie.mkv") "tune=0" "1" "16" false true Demo.encoded in
  fst r = Ok tt
  /\ forallb (fun path => match assoc path (files (snd r)) with
                          | Some _ => true
                          | None => false
                          end)
             (map fst (files Demo.encoded)) = true
  /\ List.last (stdout (snd r)) (Text "") = Text "[INFO] Cleanup aborted by user.".
Proof. vm_compute. repeat split. Qed.

(** ** The end-to-end scenario

    A two-chapter source, "Part One" from 0 to 10 seconds and "Part Two"
    from 10 to 25 seconds. *)

(** Dispatch plans the items [Part_One] and [Part_Two] with lengths 10
    and 15, starts two jobs and writes the ledger. *)
Example scenario_dispatch :
  let E := Demo.dispatcher Demo.two_chapters (fun _ => true) in
  let r := main E (Some "movie.mkv") "tune=0" "1" "16" false false
                Demo.empty_world in
  fst r = Ok tt
  /\ map proc_log (procs (snd r))
     = ["/work/log/Part_One.log"; "/work/log/Part_Two.log"]
  /\ exists items,
      work_items E [Demo.chapter "Part One" "0.000000" "10.000000";
                    Demo.chapter "Part Two" "10.000000" "25.000000"]
                 (Some "movie.mkv") "tune=0" "1" "16" = Ok items
      /\ map (fun item => getitem item "title") items
         = [Ok (PStr "Part_One"); Ok (PStr "Part_Two")]
      /\ map (fun item => getitem item "length_in_seconds") items
         = [Ok (PNum 10); Ok (PNum 15)]
      /\ assoc "/work/ffjob.json" (files (snd r))
         = Some (Demo.dumps (ledger_of E items 25)).
Proof.
  split; [vm_compute; reflexivity|]. split; [vm_compute; reflexivity|].
  eexists. split; [reflexivity|].
  split; [reflexivity|]. split; [reflexivity|].
  vm_compute. reflexivity.
Qed.

(** When both logs end at the end of their chapter, the report shows
    100 percent and returns. *)
Example scenario_status :
  let r := main Demo.reporter None "tune=0" "1" "16" true false Demo.both_done in
  fst r = Ok tt /\ completions (stdout (snd r)) = [PNum 100].
Proof. vm_compute. split; reflexivity. Qed.

(** When the log of the second item is missing, the report ends with
    [FileNotFoundError] after the first item and shows no percentage. *)
Example scenario_status_missing_log :
  let r := main Demo.reporter None "tune=0" "1" "16" true false
                (Demo.with_logs
                   [("/work/log/Part_One.log", Demo.progress "00:00:10.00")]) in
  fst r = Raise FileNotFoundError
  /\ exit_status (fst r) = 1%Z
  /\ completions (stdout (snd r)) = [].
Proof. vm_compute. repeat split. Qed.

(** When the last line of a log has no progress markers, the report ends
    with [IndexError]. *)
Example scenario_status_unreadable_log :
  let r := main Demo.reporter None "tune=0" "1" "16" true false
                (Demo.with_logs
                   [("/work/log/Part_One.log", "Press [q] to stop, [?] for help");
                    ("/work/log/Part_Two.log", Demo.progress "00:00:15.00")]) in
  fst r = Raise IndexError
  /\ exit_status (fst r) = 1%Z
  /\ completions (stdout (snd r)) = [].
Proof. vm_compute. repeat split. Qed.

(** Without a ledger the status mode ends with exit status 1. *)
Example scenario_status_without_ledger :
  fst (main Demo.reporter None "tune=0" "1" "16" true false Demo.empty_world)
  = Exit 1.
Proof. vm_compute. reflexivity. Qed.

(** Finalize in an empty working area ends with exit status 1 before
    anything is concatenated. *)
Example scenario_finalize_without_outputs :
  let r := main (Demo.finalizer "yes") (Some "movie.mkv") "tune=0" "1" "16"
                false true Demo.empty_world in
  fst r = Exit 1 /\ files (snd r) = [].
Proof. vm_compute. split; reflexivity. Qed.

(** ** Further properties of the status reporter *)

Section Reports.

Variable E : env.

Lemma add_out_nil w : add_out w [] = w.
Proof. destruct w. unfold add_out. simpl. rewrite app_nil_r. reflexivity. Qed.

Lemma add_out_app w l1 l2 : add_out (add_out w l1) l2 = add_out w (l1 ++ l2).
Proof. unfold add_out. simpl. rewrite app_assoc. reflexivity. Qed.

Lemma reports_ret {A} (a : A) : reports (ret a).
Proof.
  intros w1 w2 _. exists (Ok a), []. rewrite !add_out_nil. split; reflexivity.
Qed.

Lemma reports_lift {A} (r : result A) : reports (lift r).
Proof.
  intros w1 w2 _. exists r, []. rewrite !add_out_nil. split; reflexivity.
Qed.

Lemma reports_exit {A} c : reports (@exit A c).
Proof.
  intros w1 w2 _. exists (Exit c), []. rewrite !add_out_nil. split; reflexivity.
Qed.

Lemma reports_print l : reports (print l).
Proof. intros w1 w2 _. exists (Ok tt), [l]. split; reflexivity. Qed.

Lemma reports_bind {A B} (m : M A) (k : A -> M B) :
  reports m -> (forall a, reports (k a)) -> reports (bind m k).
Proof.
  intros Hm Hk w1 w2 F.
  destruct (Hm w1 w2 F) as (r & l1 & H1 & H2).
  unfold bind. rewrite H1, H2. destruct r as [a|e|c].
  - destruct (Hk a (add_out w1 l1) (add_out w2 l1) F) as (r' & l2 & K1 & K2).
    exists r', (l1 ++ l2). rewrite K1, K2, !add_out_app. split; reflexivity.
  - exists (Raise e), l1. split; reflexivity.
  - exists (Exit c), l1. split; reflexivity.
Qed.

Lemma reports_try_except {A} (body : M A) (handler : exn -> M A) :
  reports body -> (forall e, reports (handler e)) ->
  reports (try_except body handler).
Proof.
  intros Hb Hh w1 w2 F.
  destruct (Hb w1 w2 F) as (r & l1 & H1 & H2).
  unfold try_except. rewrite H1, H2. destruct r as [a|e|c].
  - exists (Ok a), l1. split; reflexivity.
  - destruct (Hh e (add_out w1 l1) (add_out w2 l1) F) as (r' & l2 & K1 & K2).
    exists r', (l1 ++ l2). rewrite K1, K2, !add_out_app. split; reflexivity.
  - exists (Exit c), l1. split; reflexivity.
Qed.

Lemma reports_open_read path : reports (open_read E path).
Proof.
  intros w1 w2 F. unfold open_read. rewrite F.
  destruct (assoc (resolve E path) (files w2)) as [text|].
  - exists (Ok text), []. rewrite !add_out_nil. split; reflexivity.
  - exists (Raise FileNotFoundError), []. rewrite !add_out_nil. split; reflexivity.
Qed.

Lemma reports_parse_log_file log_filename :
  reports (parse_log_file E log_filename).
Proof.
  unfold parse_log_file. apply reports_bind; [apply reports_open_read|].
  intros f. apply reports_bind; [apply reports_lift|].
  intros text. destruct (readlines text) as [|l ls]; [apply reports_ret|].
  apply reports_bind; [apply reports_lift|]. intros fps.
  apply reports_bind; [apply reports_lift|]. intros t. apply reports_ret.
Qed.

Lemma reports_status_loop chapters :
  forall acc, reports (status_loop E chapters acc).
Proof.
  induction chapters as [|c rest IH]; intros acc; [apply reports_ret|].
  cbn [status_loop].
  apply reports_bind; [apply reports_lift|]. intros title.
  apply reports_bind; [apply reports_lift|]. intros command.
  apply reports_bind; [apply reports_print|]. intros _.
  apply reports_bind; [apply reports_print|]. intros _.
  apply reports_bind; [apply reports_parse_log_file|]. intros [fps t].
  apply reports_bind; [apply reports_lift|]. intros secs.
  apply reports_bind; [apply reports_print|]. intros _.
  apply reports_bind; [apply reports_print|]. intros _.
  apply IH.
Qed.

Lemma reports_check_encoding_status ffjob_info :
  reports (check_encoding_status E ffjob_info).
Proof.
  unfold check_encoding_status.
  apply reports_bind; [apply reports_lift|]. intros chapters.
  apply reports_bind; [apply reports_lift|]. intros chapter_list.
  apply reports_bind; [apply reports_status_loop|]. intros total_encoded.
  apply reports_bind; [apply reports_lift|]. intros total.
  apply reports_bind; [apply reports_lift|]. intros encoded_time.
  apply reports_bind; [apply reports_print|]. intros _.
  apply reports_bind; [apply reports_lift|]. intros total_video_length.
  apply reports_bind; [apply reports_lift|]. intros video_length.
  apply reports_bind; [apply reports_print|]. intros _.
  apply reports_bind; [apply reports_lift|]. intros completion.
  apply reports_bind; [apply reports_print|]. intros _.
  apply reports_bind; [apply reports_lift|]. intros executed.
  apply reports_bind; [apply reports_lift|]. intros elapsed.
  apply reports_print.
Qed.

Lemma reports_get_ffjob_info : reports (get_ffjob_info E).
Proof.
  unfold get_ffjob_info. apply reports_try_except.
  - apply reports_bind; [apply reports_open_read|]. intros text.
    apply reports_lift.
  - intros e. apply reports_bind; [apply reports_print|]. intros _.
    apply reports_exit.
Qed.

Lemma reports_main_status input_file svt_av1_params preset crf :
  reports (main E input_file svt_av1_params preset crf true false).
Proof.
  unfold main. apply reports_bind; [apply reports_get_ffjob_info|].
  intros ffjob_info. apply reports_check_encoding_status.
Qed.

End Reports.

(** In status mode the script only reads: whatever the ledger and the
    logs hold and however the run ends, the files, the directories and
    the processes are the same afterwards, and the output has only
    grown. *)
Theorem status_mode_only_reads :
  forall (E : env) (input_file : option string)
         (svt_av1_params preset crf : string) (w : world),
    let w' := snd (main E input_file svt_av1_params preset crf true false w) in
    files w' = files w /\ dirs w' = dirs w /\ procs w' = procs w
    /\ exists ls, stdout w' = stdout w ++ ls.
Proof.
  intros E input_file svt preset crf w.
  destruct (reports_main_status E input_file svt preset crf w w eq_refl)
    as (r & ls & H & _).
  cbv zeta. rewrite H. cbn [snd add_out files dirs procs stdout].
  repeat split. exists ls. reflexivity.
Qed.

(** A status report can be repeated: run again on the state the first
    run left, with the logs unchanged, it ends the same way and prints
    the same lines again. *)
Theorem status_mode_is_repeatable :
  forall (E : env) (input_file : option string)
         (svt_av1_params preset crf : string) (w : world),
    let first := main E input_file svt_av1_params preset crf true false w in
    let second :=
      main E input_file svt_av1_params preset crf true false (snd first) in
    fst second = fst first
    /\ exists ls,
        stdout (snd first) = stdout w ++ ls
        /\ stdout (snd second) = stdout (snd first) ++ ls.
Proof.
  intros E input_file svt preset crf w. cbv zeta.
  destruct (reports_main_status E input_file svt preset crf w w eq_refl)
    as (r & ls & H & _).
  rewrite H. cbn [snd fst].
  destruct (reports_main_status E input_file svt preset crf
                                w (add_out w ls) eq_refl)
    as (r' & ls' & H1 & H2).
  rewrite H in H1. injection H1 as <- E1.
  assert (ls' = ls) as ->.
  { apply app_inv_head in E1. congruence. }
  rewrite H2. cbn [fst snd add_out stdout].
  split; [reflexivity|]. exists ls. split; reflexivity.
Qed.

(** Without a ledger that can be read, the status mode prints one
    diagnostic and ends with exit status 1: when the file is missing and
    when json cannot read it. *)
Theorem status_without_a_readable_ledger_exits :
  forall (E : env) (input_file : option string)
         (svt_av1_params preset crf : string) (w : world),
    assoc (resolve E "ffjob.json") (files w) = None
    \/ (exists text, assoc (resolve E "ffjob.json") (files w) = Some text
                     /\ json_load E text = None) ->
    exists e,
      main E input_file svt_av1_params preset crf true false w
      = (Exit 1, add_out w [Failed "[ERROR] Failed to read job information:" e]).
Proof.
  intros E input_file svt preset crf w H.
  unfold main, get_ffjob_info, try_except, bind, open_read, lift, load, print, exit.
  destruct H as [H|(text & H & J)]; rewrite H; [|rewrite J]; eexists; reflexivity.
Qed.

Lemma status_without_a_readable_ledger_exits_witness :
  exists e,
    main Demo.reporter None "tune=0" "1" "16" true false Demo.empty_world
    = (Exit 1,
       add_out Demo.empty_world
               [Failed "[ERROR] Failed to read job information:" e]).
Proof.
  apply (status_without_a_readable_ledger_exits
           Demo.reporter None "tune=0" "1" "16" Demo.empty_world).
  left. reflexivity.
Defined.

Lemma int_of_zero (q : Q) : q == 0 -> int_of q = 0%Z.
Proof.
  unfold Qeq, int_of. simpl. intros H.
  rewrite Z.mul_1_r in H. rewrite H. reflexivity.
Qed.

(** A ledger whose total length is zero makes the report raise
    [ZeroDivisionError] once the loop over the items is done and the two
    times are shown; no percentage is shown.  The summed encoded seconds
    are within the range of a [timedelta]. *)
Theorem zero_total_length_raises :
  forall (E : env) (w : world) (ffjob_info : pyval) (items : list pyval)
         (secs : list Q) (total : Q),
    ledger_items ffjob_info items ->
    Forall2 (item_seconds E (files w)) items secs ->
    getitem ffjob_info "total_length_in_seconds" = Ok (PNum total) ->
    total == 0 ->
    timedelta_ok (int_of (total_seconds secs)) = true ->
    exists w',
      check_encoding_status E ffjob_info w = (Raise ZeroDivisionError, w')
      /\ completions (stdout w') = completions (stdout w).
Proof.
  intros E w ffjob_info items secs total L F T Z R.
  rewrite (check_encoding_status_loop E _ _ _ L).
  destruct (status_loop_ok E items secs 0 w F) as (w1 & _ & _ & _ & C1 & H).
  change (fold_left Qplus secs 0) with (total_seconds secs) in H.
  rewrite (bind_ok _ _ _ _ _ H).
  rewrite bind_lift, T, bind_lift. unfold format_time_delta. rewrite R.
  rewrite bind_print, bind_lift. cbn [number].
  rewrite bind_lift, (int_of_zero _ Z). cbn [timedelta_ok Z.div Z.leb andb].
  change (timedelta_ok 0) with true. cbv iota.
  rewrite bind_print, bind_lift.
  apply Qeq_bool_iff in Z. rewrite Z.
  eexists. split; [reflexivity|].
  cbn [stdout]. rewrite !completions_app, C1. simpl. rewrite !app_nil_r.
  reflexivity.
Qed.

Lemma zero_total_length_raises_witness :
  exists w',
    check_encoding_status Demo.reporter (Demo.empty_ledger 0) Demo.empty_world
    = (Raise ZeroDivisionError, w').
Proof.
  destruct (zero_total_length_raises
              Demo.reporter Demo.empty_world (Demo.empty_ledger 0) [] [] 0
              eq_refl (Forall2_nil _) eq_refl (Qeq_refl 0) eq_refl)
    as (w' & H & _).
  exists w'. exact H.
Defined.

(** ** Splitting times and progress lines *)

Section Splitting.

Lemma contains_cons_false c x a :
  PyStr.contains (String c EmptyString) (String x a) = false ->
  x <> c /\ PyStr.contains (String c EmptyString) a = false.
Proof.
  unfold PyStr.contains. rewrite PyStrFacts.partition_eq.
  cbn [prefix]. destruct (ascii_dec c x) as [->|N].
  - destruct a; discriminate.
  - destruct (PyStr.partition (String c EmptyString) a) as [[? ?]|];
      [discriminate|]. intros _. split; [congruence | reflexivity].
Qed.

Lemma partition_char_none c a :
  PyStr.contains (String c EmptyString) a = false ->
  PyStr.partition (String c EmptyString) a = None.
Proof.
  unfold PyStr.contains.
  destruct (PyStr.partition _ a) as [[? ?]|]; [discriminate | reflexivity].
Qed.

(** Text without the separator character, then the separator: that is
    where [partition] cuts. *)
Lemma partition_char c a b :
  PyStr.contains (String c EmptyString) a = false ->
  PyStr.partition (String c EmptyString) (a ++ String c b) = Some (a, b).
Proof.
  induction a as [|x a IH]; intros H.
  - rewrite PyStrFacts.partition_eq. cbn [append prefix].
    destruct (ascii_dec c c); [|congruence].
    destruct b; reflexivity.
  - apply contains_cons_false in H. destruct H as [N H].
    rewrite PyStrFacts.partition_eq. cbn [append prefix].
    destruct (ascii_dec c x); [congruence|].
    rewrite (IH H). reflexivity.
Qed.

Lemma length_append a b :
  String.length (a ++ b) = (String.length a + String.length b)%nat.
Proof. induction a as [|x a IH]; simpl; [|rewrite IH]; reflexivity. Qed.

Lemma concat_length_pieces c pieces :
  (List.length pieces
   <= S (String.length (String.concat (String c EmptyString) pieces)))%nat.
Proof.
  induction pieces as [|p [|q r] IH]; simpl; try lia.
  simpl in IH. rewrite length_append. simpl. lia.
Qed.

Lemma split_fuel_concat c pieces :
  Forall (fun p => PyStr.contains (String c EmptyString) p = false) pieces ->
  pieces <> [] ->
  forall fuel,
    (List.length pieces <= S fuel)%nat ->
    PyStr.split_fuel fuel (String c EmptyString)
                     (String.concat (String c EmptyString) pieces)
    = pieces.
Proof.
  induction 1 as [|p pieces Hp Hall IH]; intros N fuel L; [congruence|].
  destruct pieces as [|q r].
  - simpl. destruct fuel; [reflexivity|].
    simpl. rewrite (partition_char_none _ _ Hp). reflexivity.
  - destruct fuel as [|fuel]; [simpl in L; lia|].
    assert (String.concat (String c EmptyString) (p :: q :: r)
            = (p ++ String c (String.concat (String c EmptyString) (q :: r)))%string)
      as -> by reflexivity.
    cbn [PyStr.split_fuel].
    rewrite (partition_char _ _ _ Hp). f_equal.
    apply IH; [discriminate | simpl in *; lia].
Qed.

(** Pieces without the separator character, joined and split again, are
    the pieces. *)
Lemma split_concat c pieces :
  Forall (fun p => PyStr.contains (String c EmptyString) p = false) pieces ->
  pieces <> [] ->
  PyStr.split (String c EmptyString)
              (String.concat (String c EmptyString) pieces)
  = pieces.
Proof.
  intros H N. unfold PyStr.split. apply split_fuel_concat; try assumption.
  pose proof (concat_length_pieces c pieces). lia.
Qed.

Lemma prefix_longer sep s t :
  prefix sep s = false -> (String.length sep <= String.length s)%nat ->
  prefix sep (s ++ t) = false.
Proof.
  revert s. induction sep as [|c sep IH]; intros s H L.
  - destruct s; discriminate.
  - destruct s as [|x s]; [simpl in L; lia|].
    cbn [append prefix] in *. destruct (ascii_dec c x); [|reflexivity].
    apply IH; [exact H | simpl in L; lia].
Qed.

Lemma partition_some_length sep s a b :
  PyStr.partition sep s = Some (a, b) ->
  (String.length sep <= String.length s)%nat.
Proof.
  intros H. apply PyStrFacts.partition_some in H. subst.
  rewrite !length_append. lia.
Qed.

(** When the first occurrence of the marker in [pre ++ marker] is the
    one at the end, [partition] cuts there whatever follows. *)
Lemma partition_extend sep pre tail :
  PyStr.partition sep (pre ++ sep) = Some (pre, EmptyString) ->
  PyStr.partition sep (pre ++ sep ++ tail) = Some (pre, tail).
Proof.
  induction pre as [|x pre IH]; intros H.
  - cbn [append]. rewrite PyStrFacts.partition_eq, PyStrFacts.prefix_append.
    f_equal. f_equal.
    clear. induction sep as [|c sep IH]; [reflexivity|]. simpl. exact IH.
  - rewrite PyStrFacts.partition_eq in H. cbn [append] in *.
    rewrite PyStrFacts.partition_eq.
    destruct (prefix sep (String x (pre ++ sep))) eqn:P; [discriminate|].
    destruct (PyStr.partition sep (pre ++ sep)) as [[a b]|] eqn:Q; [|discriminate].
    injection H as -> ->.
    assert (prefix sep (String x (pre ++ sep ++ tail)) = false) as ->.
    { change (String x (pre ++ sep ++ tail)) with (String x pre ++ sep ++ tail)%string.
      rewrite <- append_assoc. apply prefix_longer.
      - exact P.
      - simpl. rewrite length_append. lia. }
    rewrite (IH eq_refl). reflexivity.
Qed.

(** Text without the first character of the marker is skipped by
    [partition]. *)
Lemma partition_skip c m x y :
  PyStr.contains (String c EmptyString) x = false ->
  PyStr.partition (String c m) (x ++ y)
  = match PyStr.partition (String c m) y with
    | Some (a, b) => Some ((x ++ a)%string, b)
    | None => None
    end.
Proof.
  induction x as [|z x IH]; intros H.
  - cbn [append]. destruct (PyStr.partition (String c m) y) as [[a b]|]; reflexivity.
  - apply contains_cons_false in H. destruct H as [N H].
    rewrite PyStrFacts.partition_eq. cbn [append prefix].
    destruct (ascii_dec c z); [congruence|].
    rewrite (IH H).
    destruct (PyStr.partition (String c m) y) as [[a b]|]; reflexivity.
Qed.

Lemma split_head sep s :
  exists rest, PyStr.split sep s
               = match PyStr.partition sep s with
                 | Some (a, _) => a
                 | None => s
                 end :: rest.
Proof.
  unfold PyStr.split. cbn [PyStr.split_fuel].
  destruct (PyStr.partition sep s) as [[a b]|]; eexists; reflexivity.
Qed.

End Splitting.

(** A time of three fields is hours, minutes and seconds. *)
Theorem encoded_seconds_of_three_fields :
  forall (h m s : string) (H M S : Q),
    Forall (fun p => PyStr.contains ":" p = false) [h; m; s] ->
    float (PStr h) = Ok H ->
    float (PStr m) = Ok M ->
    float (PStr s) = Ok S ->
    exists q,
      encoded_seconds (h ++ ":" ++ m ++ ":" ++ s) = Ok q
      /\ q == 3600 * H + 60 * M + S.
Proof.
  intros h m s H M S F Hh Hm Hs. unfold encoded_seconds.
  change (h ++ ":" ++ m ++ ":" ++ s)%string with (String.concat ":" [h; m; s]).
  rewrite (split_concat _ _ F) by discriminate.
  cbn [weighted_sum]. rewrite Hh. cbn [rbind]. rewrite Hm. cbn [rbind].
  rewrite Hs. cbn [rbind]. eexists. split; [reflexivity|]. ring.
Qed.

Lemma encoded_seconds_of_three_fields_witness :
  exists q, encoded_seconds "01:02:03.50" = Ok q /\ q == 3723.5.
Proof.
  destruct (encoded_seconds_of_three_fields
              "01" "02" "03.50" 1 2 (7 # 2)
              ltac:(repeat constructor) eq_refl eq_refl eq_refl)
    as (q & H & V).
  exists q. split; [exact H|]. rewrite V. reflexivity.
Defined.

(** The fields are matched to hours, minutes and seconds from the left:
    a time of two fields is read as hours and minutes, and fields after
    the third are ignored, numbers or not. *)
Theorem encoded_seconds_of_other_field_counts :
  forall (a b : string) (A B : Q),
    Forall (fun p => PyStr.contains ":" p = false) [a; b] ->
    float (PStr a) = Ok A ->
    float (PStr b) = Ok B ->
    (exists q, encoded_seconds (a ++ ":" ++ b) = Ok q /\ q == 3600 * A + 60 * B)
    /\ forall s more,
        Forall (fun p => PyStr.contains ":" p = false) (s :: more) ->
        encoded_seconds (String.concat ":" (a :: b :: s :: more))
        = encoded_seconds (a ++ ":" ++ b ++ ":" ++ s).
Proof.
  intros a b A B F Ha Hb. split.
  - unfold encoded_seconds.
    change (a ++ ":" ++ b)%string with (String.concat ":" [a; b]).
    rewrite (split_concat _ _ F) by discriminate.
    cbn [weighted_sum]. rewrite Ha. cbn [rbind]. rewrite Hb. cbn [rbind].
    eexists. split; [reflexivity|]. ring.
  - intros s more Fs. unfold encoded_seconds.
    change (a ++ ":" ++ b ++ ":" ++ s)%string with (String.concat ":" [a; b; s]).
    inversion F as [|? ? Fa Fb']; subst. inversion Fb' as [|? ? Fb _]; subst.
    inversion Fs as [|? ? Fs1 Fmore]; subst.
    rewrite !split_concat; try discriminate; repeat constructor; assumption.
Qed.

Lemma encoded_seconds_of_other_field_counts_witness :
  exists q, encoded_seconds "10:05" = Ok q /\ q == 36300.
Proof.
  destruct (encoded_seconds_of_other_field_counts
              "10" "05" 10 5 ltac:(repeat constructor) eq_refl eq_refl)
    as ((q & H & V) & _).
  exists q. split; [exact H|]. rewrite V. reflexivity.
Defined.

(** The value of a marker is the text between the first occurrence of
    the marker and the next space: for a line [pre marker v space rest]
    in which the marker does not occur before, and a value [v] without a
    space and without the first character of the marker, the parsed field
    is [v]. *)
Theorem field_is_the_text_up_to_the_next_space :
  forall (c : ascii) (m pre v rest : string),
    PyStr.partition (String c m) (pre ++ String c m) = Some (pre, EmptyString) ->
    PyStr.contains " " v = false ->
    PyStr.contains (String c EmptyString) (v ++ " ") = false ->
    field (String c m) (pre ++ String c m ++ v ++ " " ++ rest) = Ok v.
Proof.
  intros c m pre v rest Hpre Hv Hc.
  assert (forall z, nth_error (PyStr.split " " ((v ++ " ") ++ z)) 0 = Some v)
    as First.
  { intros z. destruct (split_head " " ((v ++ " ") ++ z)) as [r ->].
    rewrite append_assoc.
    change (v ++ " " ++ z)%string with (v ++ String " " z)%string.
    rewrite (partition_char _ _ _ Hv). reflexivity. }
  assert (exists z,
             nth_error (PyStr.split (String c m)
                                    (pre ++ String c m ++ v ++ " " ++ rest)) 1
             = Some ((v ++ " ") ++ z)%string) as [z Hz].
  { unfold PyStr.split. cbn [PyStr.split_fuel].
    rewrite (partition_extend _ _ _ Hpre). cbn [nth_error].
    rewrite <- (append_assoc v " " rest).
    destruct (String.length _) as [|fuel]; cbn [PyStr.split_fuel].
    - exists rest. reflexivity.
    - rewrite (partition_skip _ _ _ _ Hc).
      destruct (PyStr.partition (String c m) rest) as [[a b]|];
        eexists; reflexivity. }
  unfold field. rewrite Hz, First. reflexivity.
Qed.

Lemma field_is_the_text_up_to_the_next_space_witness :
  field "time=" (Demo.progress "00:00:10.00") = Ok "00:00:10.00".
Proof.
  apply (field_is_the_text_up_to_the_next_space
           "t" "ime=" "frame=  250 fps=25 q=30.0 size=    1024kB "
           "00:00:10.00" "bitrate= 838.9kbits/s speed=1x");
    reflexivity.
Defined.

(** ** The last line of a log *)

Section LastLine.








End LastLine.



(** A log whose first line has the byte 0xE9 and whose last line is a
    progress line: the byte cannot be decoded, and the parse raises
    before it looks at any line. *)
Example undecodable_log_stops_the_parse :
  fst (parse_log_file Demo.reporter "log/Part_One.log"
         (Demo.with_logs [("/work/log/Part_One.log", Demo.latin_log)]))
  = Raise UnicodeDecodeError.
Proof. vm_compute. reflexivity. Qed.

(** ** Further properties of the planner *)

Section Titles.

Variable E : env.

Lemma contains_cons_other c x a :
  x <> c ->
  PyStr.contains (String c EmptyString) (String x a)
  = PyStr.contains (String c EmptyString) a.
Proof.
  intros N. unfold PyStr.contains. rewrite PyStrFacts.partition_eq.
  cbn [prefix]. destruct (ascii_dec c x); [congruence|].
  destruct (PyStr.partition (String c EmptyString) a) as [[? ?]|]; reflexivity.
Qed.

Lemma replace_no_space s :
  PyStr.contains " " (PyStr.replace " "%char "_" s) = false.
Proof.
  induction s as [|c s IH]; [reflexivity|].
  cbn [PyStr.replace]. destruct (Ascii.eqb_spec c " "%char) as [->|N].
  - cbn [append]. rewrite contains_cons_other by discriminate. exact IH.
  - rewrite contains_cons_other by exact N. exact IH.
Qed.

Lemma replace_length s :
  String.length (PyStr.replace " "%char "_" s) = String.length s.
Proof.
  induction s as [|c s IH]; [reflexivity|].
  cbn [PyStr.replace]. destruct (Ascii.eqb c " "%char); simpl; rewrite IH; reflexivity.
Qed.

Lemma replace_absent old new s :
  PyStr.contains (String old EmptyString) s = false ->
  PyStr.replace old new s = s.
Proof.
  induction s as [|c s IH]; intros H; [reflexivity|].
  apply contains_cons_false in H. destruct H as [N H].
  cbn [PyStr.replace]. destruct (Ascii.eqb_spec c old); [congruence|].
  rewrite (IH H). reflexivity.
Qed.

(** Replacing the spaces of a title that has none changes nothing. *)
Lemma replace_idempotent s :
  PyStr.replace " "%char "_" (PyStr.replace " "%char "_" s)
  = PyStr.replace " "%char "_" s.
Proof. apply replace_absent, replace_no_space. Qed.

(** What a work item is made of, read back from the item. *)
Lemma work_item_parts chapter input_file svt_av1_params preset crf item :
  work_item E chapter input_file svt_av1_params preset crf = Ok item ->
  exists tags raw_title,
    getitem chapter "tags" = Ok tags
    /\ getitem tags "title" = Ok (PStr raw_title)
    /\ getitem item "title" = Ok (PStr (PyStr.replace " "%char "_" raw_title))
    /\ output_of item
       = Ok (PStr (path_join (get_abs_path E "tmp")
                             (PyStr.replace " "%char "_" raw_title ++ ".mkv"))).
Proof.
  unfold work_item.
  destruct (getitem chapter "tags") as [tags| |] eqn:T; cbn [rbind]; try discriminate.
  destruct (getitem tags "title") as [raw| |] eqn:R; cbn [rbind]; try discriminate.
  destruct raw as [|s| | |]; cbn [replace_spaces rbind]; try discriminate.
  repeat match goal with
         | |- context [rbind ?r _] =>
             destruct r eqn:?; cbn [rbind]; try discriminate
         end.
  intros H. injection H as <-. exists tags, s.
  repeat split; first [assumption | reflexivity].
Qed.

End Titles.

(** Every work item the planner returns has a title without a space,
    as long as the raw title, and its output file is [<title>.mkv]
    joined to the tmp directory. *)
Theorem planned_titles_have_no_space :
  forall (E : env) (chapters : list pyval) (input_file : option string)
         (svt_av1_params preset crf : string) (items : list pyval),
    work_items E chapters input_file svt_av1_params preset crf = Ok items ->
    Forall2
      (fun chapter item =>
         exists tags raw_title title,
           getitem chapter "tags" = Ok tags
           /\ getitem tags "title" = Ok (PStr raw_title)
           /\ getitem item "title" = Ok (PStr title)
           /\ PyStr.contains " " title = false
           /\ String.length title = String.length raw_title
           /\ output_of item
              = Ok (PStr (path_join (get_abs_path E "tmp") (title ++ ".mkv"))))
      chapters items.
Proof.
  intros E chapters input_file svt preset crf.
  induction chapters as [|c chapters IH]; intros items H.
  - injection H as <-. constructor.
  - cbn [work_items] in H.
    destruct (work_item E c input_file svt preset crf) as [item| |] eqn:W;
      cbn [rbind] in H; try discriminate.
    destruct (work_items E chapters input_file svt preset crf) as [rest| |];
      cbn [rbind] in H; try discriminate.
    injection H as <-. constructor; [|apply IH; reflexivity].
    destruct (work_item_parts E _ _ _ _ _ _ W) as (tags & raw & T & R & Ti & O).
    exists tags, raw, (PyStr.replace " "%char "_" raw).
    repeat split; try assumption.
    + apply replace_no_space.
    + apply replace_length.
Qed.

Lemma planned_titles_have_no_space_witness :
  exists items,
    work_items Demo.planner
               [Demo.chapter "Part One" "0.000000" "10.000000"]
               (Some "movie.mkv") "tune=0" "1" "16" = Ok items
    /\ Forall2 (fun _ item => output_of item = Ok (PStr "/work/tmp/Part_One.mkv"))
               [Demo.chapter "Part One" "0.000000" "10.000000"] items.
Proof.
  eexists. split; [reflexivity|].
  pose proof (planned_titles_have_no_space
                Demo.planner
                [Demo.chapter "Part One" "0.000000" "10.000000"]
                (Some "movie.mkv") "tune=0" "1" "16" _ eq_refl) as H.
  inversion H as [|? ? ? ? (tags & raw & title & _ & _ & T & _ & _ & O) Hr]; subst.
  inversion Hr; subst.
  injection T as <-. constructor; [exact O | constructor].
Defined.

(** Two chapters whose titles differ only in spaces against underscores
    are planned with the same title, hence the same output file and the
    same log file: a chapter titled [raw] and one titled like the work
    item of [raw] collide. *)
Theorem space_and_underscore_titles_collide :
  forall (E : env) (c1 c2 : pyval) (raw : string)
         (s1 e1 s2 e2 : pyval) (qs1 qe1 qs2 qe2 : Q)
         (input_file svt_av1_params preset crf : string),
    chapter_fields c1 raw s1 e1 qs1 qe1 ->
    chapter_fields c2 (PyStr.replace " "%char "_" raw) s2 e2 qs2 qe2 ->
    exists item1 item2 title,
      work_item E c1 (Some input_file) svt_av1_params preset crf = Ok item1
      /\ work_item E c2 (Some input_file) svt_av1_params preset crf = Ok item2
      /\ getitem item1 "title" = Ok (PStr title)
      /\ getitem item2 "title" = Ok (PStr title)
      /\ output_of item1 = output_of item2
      /\ output_of item1
         = Ok (PStr (path_join (get_abs_path E "tmp") (title ++ ".mkv"))).
Proof.
  intros E c1 c2 raw s1 e1 s2 e2 qs1 qe1 qs2 qe2 input_file svt preset crf F1 F2.
  destruct (work_item_valid E input_file svt preset crf _ _ _ _ _ _ F1)
    as [cmd1 W1].
  destruct (work_item_valid E input_file svt preset crf _ _ _ _ _ _ F2)
    as [cmd2 W2].
  rewrite replace_idempotent in W2.
  destruct (work_item_parts E _ _ _ _ _ _ W1) as (t1 & r1 & T1 & R1 & _ & O1).
  destruct (work_item_parts E _ _ _ _ _ _ W2) as (t2 & r2 & T2 & R2 & _ & O2).
  destruct F1 as ((t1' & T1' & R1') & _), F2 as ((t2' & T2' & R2') & _).
  rewrite T1' in T1. injection T1 as <-. rewrite R1' in R1. injection R1 as <-.
  rewrite T2' in T2. injection T2 as <-. rewrite R2' in R2. injection R2 as <-.
  rewrite replace_idempotent in O2.
  eexists _, _, _. split; [exact W1|]. split; [exact W2|].
  split; [reflexivity|]. split; [reflexivity|].
  split; [rewrite O1, O2; reflexivity | exact O1].
Qed.

Lemma space_and_underscore_titles_collide_witness :
  exists item1 item2,
    work_item Demo.planner (Demo.chapter "Part One" "0.000000" "10.000000")
              (Some "movie.mkv") "tune=0" "1" "16" = Ok item1
    /\ work_item Demo.planner (Demo.chapter "Part_One" "10.000000" "25.000000")
                 (Some "movie.mkv") "tune=0" "1" "16" = Ok item2
    /\ output_of item1 = output_of item2.
Proof.
  destruct (space_and_underscore_titles_collide
              Demo.planner
              (Demo.chapter "Part One" "0.000000" "10.000000")
              (Demo.chapter "Part_One" "10.000000" "25.000000")
              "Part One" (PStr "0.000000") (PStr "10.000000")
              (PStr "10.000000") (PStr "25.000000") 0 10 10 25
              "movie.mkv" "tune=0" "1" "16")
    as (item1 & item2 & title & W1 & W2 & _ & _ & O & _).
  - split; [eexists; split; reflexivity|]. repeat split; reflexivity.
  - split; [eexists; split; reflexivity|]. repeat split; reflexivity.
  - exists item1, item2. split; [exact W1|]. split; [exact W2 | exact O].
Defined.

(** ** Further properties of dispatch *)

(** Planning is all or nothing: when one chapter cannot be planned (a
    missing title, a boundary that is not a number), [main] ends with
    that exception before any job is started and before a ledger is
    written; the files are as ffprobe left them. *)
Theorem unplannable_chapter_stops_dispatch :
  forall (E : env) (w : world) (input_file svt_av1_params preset crf : string)
         (json_output : pyval) (fs' : list (string * string))
         (chapters : list pyval) (total_length : Q) (e : exn),
    ready E w ->
    probed E w input_file json_output fs' ->
    metadata json_output (PList chapters) total_length ->
    work_items E chapters (Some input_file) svt_av1_params preset crf = Raise e ->
    exists w',
      main E (Some input_file) svt_av1_params preset crf false false w
      = (Raise e, w')
      /\ files w' = fs' /\ procs w' = procs w.
Proof.
  intros E w input_file svt preset crf json_output fs' chapters total e
         R P (Hc & format & duration & Hf & Hd & Hfl) Hi.
  unfold main. rewrite bind_print.
  destruct (ensure_directories_exist_ok
              E
              (mkWorld (files w) (dirs w) (procs w)
                       (stdout w ++ [Text "[INFO] Script started. Preparing to process video file..."])) R)
    as (w1 & H1 & F1 & P1).
  rewrite (bind_ok _ _ _ _ _ H1).
  destruct (run_ffprobe_ok E _ _ _ w w1 P F1) as (w2 & H2 & F2 & P2).
  rewrite (bind_ok _ _ _ _ _ H2).
  rewrite bind_lift, Hc, bind_lift, Hf. cbn [rbind]. rewrite Hd. cbn [rbind].
  rewrite Hfl, bind_lift. cbn [len]. rewrite bind_print.
  unfold generate_ffmpeg_commands at 1.
  unfold bind at 1. rewrite bind_lift. cbn [iterate].
  rewrite bind_lift, Hi.
  eexists. split; [reflexivity|]. cbn [files procs] in *.
  split; congruence.
Qed.

Lemma unplannable_chapter_stops_dispatch_witness :
  exists w',
    main (Demo.dispatcher Demo.untitled_chapter (fun _ => true))
         (Some "movie.mkv") "tune=0" "1" "16" false false Demo.empty_world
    = (Raise KeyError, w')
    /\ files w' = [] /\ procs w' = [].
Proof.
  apply (unplannable_chapter_stops_dispatch
           (Demo.dispatcher Demo.untitled_chapter (fun _ => true))
           Demo.empty_world "movie.mkv" "tune=0" "1" "16"
           Demo.untitled_chapter []
           [Demo.chapter "Part One" "0.000000" "10.000000";
            PDict [("start_time", PStr "10.000000");
                   ("end_time", PStr "25.000000")]]
           25 KeyError).
  - intros dir [<-|[<-|[]]]; right; reflexivity.
  - eexists _, _. split; reflexivity.
  - split; [reflexivity|]. eexists _, _. repeat split; reflexivity.
  - reflexivity.
Defined.

(** When ffprobe returns a non-zero code, or prints what json cannot
    read, dispatch prints a diagnostic and ends with exit status 1: no
    job is started and the script writes no file. *)
Theorem failed_ffprobe_stops_dispatch :
  forall (E : env) (w : world) (input_file svt_av1_params preset crf : string)
         (returncode : Z) (out err : string) (fs' : list (string * string)),
    ready E w ->
    run E (ffprobe_command (get_abs_path E input_file)) (files w)
    = Ran returncode out err fs' ->
    returncode <> 0%Z \/ json_load E out = None ->
    exists w',
      main E (Some input_file) svt_av1_params preset crf false false w
      = (Exit 1, w')
      /\ files w' = fs' /\ procs w' = procs w
      /\ exists e, List.last (stdout w') (Text "")
                   = Failed "[ERROR] Failed to run ffprobe:" e.
Proof.
  intros E w input_file svt preset crf rc out err fs' R Hr Hbad.
  unfold main. rewrite bind_print.
  destruct (ensure_directories_exist_ok
              E
              (mkWorld (files w) (dirs w) (procs w)
                       (stdout w ++ [Text "[INFO] Script started. Preparing to process video file..."])) R)
    as (w1 & H1 & F1 & P1).
  rewrite (bind_ok _ _ _ _ _ H1).
  cbn [files procs] in F1, P1.
  assert (exists w2 e,
             run_ffprobe E (Some input_file) w1 = (Exit 1, w2)
             /\ files w2 = fs' /\ procs w2 = procs w1
             /\ List.last (stdout w2) (Text "")
                = Failed "[ERROR] Failed to run ffprobe:" e)
    as (w2 & e & H2 & F2 & P2 & L2).
  { unfold run_ffprobe, try_except. rewrite bind_print, bind_lift.
    cbn [get_abs_path_arg].
    unfold bind at 1. unfold subprocess_run at 1. cbn [files].
    rewrite F1, Hr.
    destruct (Z.eqb_spec rc 0) as [->|N].
    - destruct Hbad as [Hbad|Hbad]; [congruence|].
      unfold bind, ret, print, lift, loads, exit. rewrite Hbad.
      eexists _, _. split; [reflexivity|]. cbn [files procs stdout set_files].
      repeat split. apply last_last.
    - unfold bind, raise, print, exit.
      eexists _, _. split; [reflexivity|]. cbn [files procs stdout set_files].
      repeat split. apply last_last. }
  rewrite (bind_exit _ _ _ _ _ H2).
  exists w2. split; [reflexivity|]. split; [exact F2|].
  split; [congruence|]. exists e. exact L2.
Qed.

Lemma failed_ffprobe_stops_dispatch_witness :
  exists w',
    main Demo.without_ffprobe (Some "movie.mkv") "tune=0" "1" "16" false false
         Demo.empty_world
    = (Exit 1, w')
    /\ files w' = [] /\ procs w' = [].
Proof.
  destruct (failed_ffprobe_stops_dispatch
              Demo.without_ffprobe Demo.empty_world
              "movie.mkv" "tune=0" "1" "16" 1 ""
              "movie.mkv: No such file or directory" [])
    as (w' & H & F & P & _).
  - intros dir [<-|[<-|[]]]; right; reflexivity.
  - reflexivity.
  - left. discriminate.
  - exists w'. repeat split; assumption.
Defined.

(** A dispatch that goes through writes the ledger of all planned items,
    also of those whose job did not start, and the processes it leaves
    are exactly the jobs that started. *)
Theorem dispatch_writes_the_ledger_of_all_items :
  forall (E : env) (w : world) (input_file svt_av1_params preset crf : string)
         (json_output : pyval) (fs' : list (string * string))
         (chapters : list pyval) (total_length : Q) (items : list pyval),
    ready E w ->
    probed E w input_file json_output fs' ->
    metadata json_output (PList chapters) total_length ->
    work_items E chapters (Some input_file) svt_av1_params preset crf = Ok items ->
    writable E (resolve E "ffjob.json") = true ->
    exists w',
      main E (Some input_file) svt_av1_params preset crf false false w = (Ok tt, w')
      /\ assoc (resolve E "ffjob.json") (files w')
         = Some (json_dump E (ledger_of E items total_length))
      /\ procs w' = procs w ++ launched E items.
Proof.
  intros E w input_file svt preset crf json_output fs' chapters total items
         R P Md Hi W.
  destruct (main_dispatch_prefix E _ _ _ _ _ _ _ _ _ _ R P Md Hi)
    as (w0 & F0 & P0 & ->).
  unfold dispatch_rest.
  destruct (launch_loop E items (work_items_built E _ _ _ _ _ _ Hi) w0)
    as (w1 & H1 & P1 & F1).
  rewrite (bind_ok _ _ _ _ _ H1).
  rewrite (bind_ok _ _ _ _ _ (save_ffjob_info_writable E items _ total w1 W)).
  unfold print. eexists. split; [reflexivity|]. cbn [files procs].
  split; [apply assoc_set_same|]. rewrite P1, P0. reflexivity.
Qed.

Lemma dispatch_writes_the_ledger_of_all_items_witness :
  exists w' items,
    main Demo.without_encoder (Some "movie.mkv") "tune=0" "1" "16" false false
         Demo.empty_world
    = (Ok tt, w')
    /\ assoc "/work/ffjob.json" (files w')
       = Some (Demo.dumps (ledger_of Demo.without_encoder items 25))
    /\ List.length items = 2%nat
    /\ procs w' = [].
Proof.
  edestruct (dispatch_writes_the_ledger_of_all_items
               Demo.without_encoder Demo.empty_world
               "movie.mkv" "tune=0" "1" "16" Demo.two_chapters [])
    as (w' & H & F & P).
  - intros dir [<-|[<-|[]]]; right; reflexivity.
  - eexists _, _. split; reflexivity.
  - split; [reflexivity|]. eexists _, _. repeat split; reflexivity.
  - vm_compute. reflexivity.
  - reflexivity.
  - eexists w', _. split; [exact H|]. split; [exact F|].
    split; [reflexivity | exact P].
Defined.

Lemma assoc_app_some {A} k (v : A) d extra :
  assoc k d = Some v -> assoc k (d ++ extra) = Some v.
Proof.
  induction d as [|[k0 v0] d IH]; simpl; [discriminate|].
  destruct (String.eqb k0 k); [trivial | exact IH].
Qed.

Lemma assoc_app_new {A} k (v : A) d :
  assoc k d = None -> assoc k (d ++ [(k, v)]) = Some v.
Proof.
  induction d as [|[k0 v0] d IH]; simpl.
  - rewrite String.eqb_refl. reflexivity.
  - destruct (String.eqb k0 k); [discriminate | exact IH].
Qed.

(** Launching never changes a file that exists: the log is opened for
    appending, so a log left by an earlier dispatch keeps its text, and
    the job is started all the same. *)
Theorem launching_keeps_existing_files :
  forall (E : env) (chapter_info : pyval) (w : world) (path text : string),
    assoc path (files w) = Some text ->
    assoc path (files (snd (execute_ffmpeg_command E chapter_info w))) = Some text
    /\ forall title command,
        getitem chapter_info "title" = Ok title ->
        getitem chapter_info "command" = Ok command ->
        path = resolve E (log_of E title) ->
        writable E path = true ->
        popen E command = true ->
        exists w1,
          execute_ffmpeg_command E chapter_info w = (Ok tt, w1)
          /\ procs w1 = procs w ++ [mkProc command (log_of E title)].
Proof.
  intros E chapter_info w path text F. split.
  - unfold execute_ffmpeg_command.
    destruct (getitem chapter_info "title") as [title|e|c]; try exact F.
    unfold try_except. rewrite bind_lift.
    destruct (getitem chapter_info "command") as [command|e|c]; try exact F.
    unfold bind at 1. unfold open_append at 1.
    destruct (writable E _); [|exact F].
    destruct (assoc (resolve E _) (files w)) as [old|];
      unfold bind, subprocess_Popen, print;
      destruct (popen E command); cbn [snd files set_files];
        try exact F; apply assoc_app_some; exact F.
  - intros title command T C -> W P.
    unfold execute_ffmpeg_command. rewrite T.
    unfold try_except. rewrite bind_lift, C.
    fold (log_of E title).
    unfold bind at 1. unfold open_append at 1. rewrite W, F.
    unfold bind, subprocess_Popen, print. rewrite P.
    eexists. split; reflexivity.
Qed.

Lemma launching_keeps_existing_files_witness :
  assoc "/work/log/Part_One.log"
        (files (snd (execute_ffmpeg_command
                       Demo.reporter (Demo.work "Part_One" 10) Demo.both_done)))
  = Some (Demo.progress "00:00:10.00").
Proof.
  apply (proj1 (launching_keeps_existing_files
                  Demo.reporter (Demo.work "Part_One" 10) Demo.both_done
                  "/work/log/Part_One.log" (Demo.progress "00:00:10.00")
                  eq_refl)).
Defined.

(** A job that cannot be started is reported and does not stop the
    launcher; its log, opened before the start, is left empty, and the
    status reporter reads it as not started: speed ["N/A"] and the time
    ["00:00:00.00"]. *)
Theorem failed_start_leaves_an_empty_log :
  forall (E : env) (chapter_info title command : pyval) (w : world),
    getitem chapter_info "title" = Ok title ->
    getitem chapter_info "command" = Ok command ->
    writable E (resolve E (log_of E title)) = true ->
    popen E command = false ->
    assoc (resolve E (log_of E title)) (files w) = None ->
    exists w1,
      execute_ffmpeg_command E chapter_info w = (Ok tt, w1)
      /\ procs w1 = procs w
      /\ parse_log_file E (log_of E title) w1
         = (Ok ("N/A", "00:00:00.00"), w1).
Proof.
  intros E chapter_info title command w T C W P F.
  unfold execute_ffmpeg_command. rewrite T.
  unfold try_except. rewrite bind_lift, C. fold (log_of E title).
  unfold bind at 1. unfold open_append at 1. rewrite W, F.
  unfold bind, subprocess_Popen, print. rewrite P.
  eexists. split; [reflexivity|]. split; [reflexivity|].
  rewrite parse_log_file_pure. cbn [files set_files].
  rewrite (log_parse_empty E _ _ EmptyString); [reflexivity| |reflexivity].
  apply assoc_app_new. exact F.
Qed.

Lemma failed_start_leaves_an_empty_log_witness :
  exists w1,
    execute_ffmpeg_command Demo.without_encoder (Demo.work "Part_One" 10)
                           Demo.empty_world
    = (Ok tt, w1)
    /\ procs w1 = []
    /\ parse_log_file Demo.without_encoder "/work/log/Part_One.log" w1
       = (Ok ("N/A", "00:00:00.00"), w1).
Proof.
  apply (failed_start_leaves_an_empty_log
           Demo.without_encoder (Demo.work "Part_One" 10)
           (PStr "Part_One")
           (PList [PStr "ffmpeg"; PStr "-i"; PStr "/work/movie.mkv"])
           Demo.empty_world); reflexivity.
Defined.

(** ** Further properties of the finalizer *)

(** Finalize without a chapter output in the tmp directory prints one
    diagnostic and ends with exit status 1; nothing is concatenated and
    nothing else changes.  The status flag makes no difference. *)
Theorem finalize_without_outputs_exits :
  forall (E : env) (input_file : option string)
         (svt_av1_params preset crf : string) (info : bool) (w : world),
    outputs_found E w = [] ->
    main E input_file svt_av1_params preset crf info true w
    = (Exit 1,
       add_out w [Text "[ERROR] No chapter files found in 'tmp' directory."]).
Proof.
  intros E input_file svt preset crf info w H.
  unfold main, verify_chapter_files, bind, glob_mkv.
  fold (outputs_found E w). rewrite H. reflexivity.
Qed.

Lemma finalize_without_outputs_exits_witness :
  main (Demo.finalizer "yes") (Some "movie.mkv") "tune=0" "1" "16" false true
       (Demo.with_logs [("/work/log/Part_One.log", "")])
  = (Exit 1,
     add_out (Demo.with_logs [("/work/log/Part_One.log", "")])
             [Text "[ERROR] No chapter files found in 'tmp' directory."]).
Proof.
  apply (finalize_without_outputs_exits
           (Demo.finalizer "yes") (Some "movie.mkv") "tune=0" "1" "16" false
           (Demo.with_logs [("/work/log/Part_One.log", "")]) eq_refl).
Defined.

(** When ffmpeg returns a non-zero code for the concatenation, finalize
    prints a diagnostic and ends with exit status 1, before the quality
    check and without asking for the cleanup. *)
Theorem failed_concatenation_stops_finalize :
  forall (E : env) (input_file : option string)
         (svt_av1_params preset crf : string) (info : bool) (w : world)
         (returncode : Z) (out err : string) (fs' : list (string * string)),
    outputs_found E w <> [] ->
    writable E (manifest_path E) = true ->
    run E (concat_command E) (files_with_manifest E w)
    = Ran returncode out err fs' ->
    returncode <> 0%Z ->
    main E input_file svt_av1_params preset crf info true w
    = (Exit 1,
       mkWorld fs' (dirs w) (procs w)
               (stdout w ++
                [Text "[INFO] All chapter files found. Proceeding to concatenation.";
                 Text "[INFO] Concatenating chapter files...";
                 Failed "[ERROR] Failed to concatenate chapter files:"
                        CalledProcessError])).
Proof.
  intros E input_file svt preset crf info w rc out err fs' Hout Hw Hr Hrc.
  unfold main.
  assert (verify_chapter_files E w
          = (Ok tt, add_out w [Text "[INFO] All chapter files found. Proceeding to concatenation."]))
    as V.
  { unfold verify_chapter_files, bind, glob_mkv. fold (outputs_found E w).
    destruct (outputs_found E w); [congruence | reflexivity]. }
  rewrite (bind_ok _ _ _ _ _ V).
  apply bind_exit.
  unfold concatenate_chapters, try_except_called. cbv zeta.
  rewrite bind_print.
  rewrite (bind_ok _ _ _ _ _ (glob_mkv_tmp E _)).
  match goal with
  | |- context [globbed_outputs E ?x] =>
      change (globbed_outputs E x) with (globbed_outputs E w)
  end.
  unfold bind at 1. unfold open_write at 1.
  fold (manifest_path E). rewrite Hw.
  cbn [set_files files dirs procs stdout].
  fold (files_with_manifest E w).
  unfold bind at 1. unfold subprocess_run at 1. cbn [files].
  fold (concat_command E).
  cbn [set_files files dirs procs stdout add_out].
  fold (files_with_manifest E w). rewrite Hr.
  destruct (Z.eqb_spec rc 0) as [->|_]; [congruence|].
  unfold bind, raise, print, exit. cbn [set_files files dirs procs stdout].
  rewrite <- !app_assoc. reflexivity.
Qed.

Lemma failed_concatenation_stops_finalize_witness :
  fst (main Demo.without_concat (Some "movie.mkv") "tune=0" "1" "16" false true
            Demo.encoded)
  = Exit 1.
Proof.
  rewrite (failed_concatenation_stops_finalize
             Demo.without_concat (Some "movie.mkv") "tune=0" "1" "16" false
             Demo.encoded 1 "" "concat.txt: Invalid data found"
             (files_with_manifest Demo.without_concat Demo.encoded)).
  - reflexivity.
  - discriminate.
  - reflexivity.
  - reflexivity.
  - discriminate.
Defined.

(** Only a failed ffmpeg run is turned into exit status 1 by
    [concatenate_chapters]: when the manifest cannot be written, the
    [PermissionError] propagates and ffmpeg is not run; when ffmpeg
    cannot be started, that exception propagates. *)
Theorem other_concatenation_errors_propagate :
  forall (E : env) (w : world),
    (writable E (manifest_path E) = false ->
     concatenate_chapters E w
     = (Raise PermissionError,
        add_out w [Text "[INFO] Concatenating chapter files..."]))
    /\ (forall e,
           writable E (manifest_path E) = true ->
           run E (concat_command E) (files_with_manifest E w) = RunRaise e ->
           e <> CalledProcessError ->
           fst (concatenate_chapters E w) = Raise e).
Proof.
  intros E w. split.
  - intros Hw. unfold concatenate_chapters, try_except_called. cbv zeta.
    rewrite bind_print.
    rewrite (bind_ok _ _ _ _ _ (glob_mkv_tmp E _)).
    unfold bind at 1. unfold open_write at 1.
    fold (manifest_path E). rewrite Hw. reflexivity.
  - intros e Hw Hr Ne. unfold concatenate_chapters, try_except_called. cbv zeta.
    rewrite bind_print.
  rewrite (bind_ok _ _ _ _ _ (glob_mkv_tmp E _)).
  match goal with
  | |- context [globbed_outputs E ?x] =>
      change (globbed_outputs E x) with (globbed_outputs E w)
  end.
    unfold bind at 1. unfold open_write at 1.
    fold (manifest_path E). rewrite Hw.
    cbn [set_files files dirs procs stdout].
    fold (files_with_manifest E w).
    unfold bind at 1. unfold subprocess_run at 1. cbn [files].
    fold (concat_command E).
  cbn [set_files files dirs procs stdout add_out].
  fold (files_with_manifest E w). rewrite Hr.
    destruct e; try reflexivity. congruence.
Qed.

Lemma other_concatenation_errors_propagate_witness :
  concatenate_chapters (Demo.dispatcher Demo.two_chapters (fun _ => false))
                       Demo.encoded
  = (Raise PermissionError,
     add_out Demo.encoded [Text "[INFO] Concatenating chapter files..."]).
Proof.
  apply (proj1 (other_concatenation_errors_propagate
                  (Demo.dispatcher Demo.two_chapters (fun _ => false))
                  Demo.encoded) eq_refl).
Defined.

Section Cleanup.

Variable E : env.




Lemma not_below_itself dir : below dir dir = false.
Proof.
  unfold below. induction dir as [|c dir IH]; [reflexivity|].
  cbn [append prefix]. destruct (ascii_dec c c); [exact IH | congruence].
Qed.




End Cleanup.



(** [run_ffprobe], [run_vmaf] and [get_ffjob_info] never let an
    exception escape: each returns its value or ends the script with
    exit status 1, whatever the tools, the files and json do. *)
Theorem tool_wrappers_exit_instead_of_raising :
  forall (E : env) (w : world),
    (forall input_file,
        (exists v, fst (run_ffprobe E input_file w) = Ok v)
        \/ fst (run_ffprobe E input_file w) = Exit 1)
    /\ (forall original_file encoded_file,
           (exists v, fst (run_vmaf E original_file encoded_file w) = Ok v)
           \/ fst (run_vmaf E original_file encoded_file w) = Exit 1)
    /\ ((exists v, fst (get_ffjob_info E w) = Ok v)
        \/ fst (get_ffjob_info E w) = Exit 1).
Proof.
  intros E w. split; [|split].
  - intros input_file.
    unfold run_ffprobe, try_except, bind, print, lift, subprocess_run,
      ret, raise, loads, exit.
    destruct input_file as [f|]; cbn [get_abs_path_arg]; [|right; reflexivity].
    destruct (run E _ _) as [e|rc out err fs']; [right; reflexivity|].
    destruct (rc =? 0)%Z; [|right; reflexivity].
    destruct (json_load E out); [left; eexists; reflexivity | right; reflexivity].
  - intros original_file encoded_file.
    unfold run_vmaf, try_except, bind, print, lift, subprocess_run,
      ret, raise, load, exit, open_read.
    destruct (run E _ _) as [e|rc out err fs']; [right; reflexivity|].
    destruct (rc =? 0)%Z; [|right; reflexivity].
    cbn [files set_files].
    destruct (assoc _ fs') as [text|]; [|right; reflexivity].
    destruct (json_load E text) as [v|]; [|right; reflexivity].
    destruct (getitem v "VMAF_score") as [score|e|c] eqn:G;
      [left; eexists; reflexivity | right; reflexivity |].
    exfalso. exact (getitem_no_exit _ _ _ G).
  - unfold get_ffjob_info, try_except, bind, open_read, lift, load, print, exit.
    destruct (assoc _ (files w)) as [text|]; [|right; reflexivity].
    destruct (json_load E text); [left; eexists; reflexivity | right; reflexivity].
Qed.

Lemma same_end_bind {A B} (m : M A) (k1 k2 : A -> M B) w :
  (forall a w1, same_end (k1 a w1) (k2 a w1)) ->
  same_end (bind m k1 w) (bind m k2 w).
Proof.
  intros H. unfold bind. destruct (m w) as [[a|e|c] w1].
  - apply H.
  - repeat split.
  - repeat split.
Qed.

(** In finalize mode the answer to the cleanup question changes only
    what is printed: the run ends the same way and leaves the same
    files, directories and processes whether the user confirms or
    declines. *)
Theorem finalize_answer_changes_only_the_output :
  forall (E : env) (input_file : option string)
         (svt_av1_params preset crf : string) (info : bool) (w : world)
         (answer1 answer2 : string),
    same_end
      (main (with_input E (Some answer1)) input_file
            svt_av1_params preset crf info true w)
      (main (with_input E (Some answer2)) input_file
            svt_av1_params preset crf info true w).
Proof.
  intros E input_file svt preset crf info w answer1 answer2.
  unfold main.
  change (verify_chapter_files (with_input E (Some answer1)))
    with (verify_chapter_files E).
  change (verify_chapter_files (with_input E (Some answer2)))
    with (verify_chapter_files E).
  change (concatenate_chapters (with_input E (Some answer1)))
    with (concatenate_chapters E).
  change (concatenate_chapters (with_input E (Some answer2)))
    with (concatenate_chapters E).
  change (run_vmaf (with_input E (Some answer1)))
    with (run_vmaf E).
  change (run_vmaf (with_input E (Some answer2)))
    with (run_vmaf E).
  apply same_end_bind. intros _ w1.
  apply same_end_bind. intros _ w2.
  apply same_end_bind. intros score w3.
  unfold user_confirmation, bind, print, lift, ret. cbn [input with_input].
  destruct (existsb (String.eqb (PyStr.lower answer1)) ["yes"; "y"]),
           (existsb (String.eqb (PyStr.lower answer2)) ["yes"; "y"]);
    repeat split.
Qed.

(** ** Starting a dispatch *)

Section Starting.

Variable E : env.

Lemma makedirs_spec path w :
  existsb (String.eqb (resolve E path)) (dirs w) = true
  \/ writable E (resolve E path) = true ->
  exists ds,
    makedirs E path w
    = (Ok tt, mkWorld (files w) (dirs w ++ ds) (procs w) (stdout w))
    /\ existsb (String.eqb (resolve E path)) (dirs w ++ ds) = true
    /\ (existsb (String.eqb (resolve E path)) (dirs w) = true -> ds = []).
Proof.
  intros H. unfold makedirs.
  destruct (existsb _ (dirs w)) eqn:X.
  - exists []. rewrite app_nil_r. split; [destruct w; reflexivity|].
    split; [exact X | reflexivity].
  - destruct H as [H|H]; [discriminate|]. rewrite H.
    exists [resolve E path]. split; [reflexivity|]. split; [|discriminate].
    rewrite existsb_app. simpl. rewrite String.eqb_refl.
    rewrite orb_true_r. reflexivity.
Qed.

Lemma makedirs_print_spec path l w :
  existsb (String.eqb (resolve E path)) (dirs w) = true
  \/ writable E (resolve E path) = true ->
  exists ds,
    (makedirs E path ;; print l) w
    = (Ok tt, mkWorld (files w) (dirs w ++ ds) (procs w) (stdout w ++ [l]))
    /\ existsb (String.eqb (resolve E path)) (dirs w ++ ds) = true.
Proof.
  intros H. destruct (makedirs_spec path w H) as (ds & M & X & _).
  exists ds. rewrite (bind_ok _ _ _ _ _ M). split; [reflexivity | exact X].
Qed.

(** Once the directory exists, making it again only prints. *)
Lemma makedirs_print_again path l w :
  existsb (String.eqb (resolve E path)) (dirs w) = true ->
  (makedirs E path ;; print l) w = (Ok tt, add_out w [l]).
Proof.
  intros X. unfold bind, makedirs, print. rewrite X. reflexivity.
Qed.

End Starting.

(** [ensure_directories_exist] leaves the tmp and log directories in
    place and touches no file; once they exist it needs no permission
    and adds nothing: a second run only prints. *)
Theorem working_directories_are_made_once :
  forall (E : env) (w : world),
    ready E w ->
    exists w1,
      ensure_directories_exist E w = (Ok tt, w1)
      /\ files w1 = files w
      /\ (forall dir,
             In dir ["tmp"; "log"] ->
             existsb (String.eqb (resolve E (get_abs_path E dir))) (dirs w1) = true)
      /\ exists ls, ensure_directories_exist E w1 = (Ok tt, add_out w1 ls).
Proof.
  intros E w R. unfold ensure_directories_exist. cbn [for_each].
  destruct (makedirs_print_spec
              E (get_abs_path E "tmp")
              (Shown "[INFO] directory is ready." (PStr (get_abs_path E "tmp")))
              w) as (ds1 & M1 & X1).
  { apply R. left. reflexivity. }
  rewrite (bind_ok _ _ _ _ _ M1).
  match goal with |- context [bind (bind (makedirs E ?p) (fun _ => print ?l)) _ ?w0] =>
    destruct (makedirs_print_spec E p l w0) as (ds2 & M2 & X2)
  end.
  { cbn [dirs]. destruct (R "log") as [X|X].
    - right. left. reflexivity.
    - left. rewrite existsb_app, X. reflexivity.
    - right. exact X. }
  rewrite (bind_ok _ _ _ _ _ M2).
  cbn [files dirs procs stdout] in *.
  assert (existsb (String.eqb (resolve E (get_abs_path E "tmp")))
                  ((dirs w ++ ds1) ++ ds2) = true) as X1'
      by (rewrite existsb_app, X1; reflexivity).
  match goal with |- context [ret tt ?w0] => set (w1 := w0) end.
  exists w1. split; [reflexivity|].
  split; [reflexivity|]. split.
  - intros dir [<-|[<-|[]]]; assumption.
  - set (l1 := Shown "[INFO] directory is ready." (PStr (get_abs_path E "tmp"))).
    set (l2 := Shown "[INFO] directory is ready." (PStr (get_abs_path E "log"))).
    rewrite (bind_ok _ _ _ _ _
               (makedirs_print_again E (get_abs_path E "tmp") l1 w1 X1')).
    rewrite (bind_ok _ _ _ _ _
               (makedirs_print_again E (get_abs_path E "log") l2
                                     (add_out w1 [l1]) X2)).
    rewrite add_out_app. eexists. reflexivity.
Qed.

Lemma working_directories_are_made_once_witness :
  exists w1,
    ensure_directories_exist (Demo.dispatcher Demo.two_chapters (fun _ => true))
                             Demo.empty_world
    = (Ok tt, w1)
    /\ files w1 = [].
Proof.
  destruct (working_directories_are_made_once
              (Demo.dispatcher Demo.two_chapters (fun _ => true))
              Demo.empty_world) as (w1 & H & F & _).
  - intros dir [<-|[<-|[]]]; right; reflexivity.
  - exists w1. split; [exact H | exact F].
Defined.

(** Dispatch without an input file argument ends with exit status 1
    before ffprobe is run: the directories are made, a diagnostic is
    printed, and no file or process is touched. *)
Theorem dispatch_without_input_file_exits :
  forall (E : env) (svt_av1_params preset crf : string) (w : world),
    ready E w ->
    exists w',
      main E None svt_av1_params preset crf false false w = (Exit 1, w')
      /\ files w' = files w /\ procs w' = procs w
      /\ List.last (stdout w') (Text "")
         = Failed "[ERROR] Failed to run ffprobe:" TypeError.
Proof.
  intros E svt preset crf w R. unfold main. rewrite bind_print.
  destruct (ensure_directories_exist_ok
              E
              (mkWorld (files w) (dirs w) (procs w)
                       (stdout w ++ [Text "[INFO] Script started. Preparing to process video file..."])) R)
    as (w1 & H1 & F1 & P1).
  rewrite (bind_ok _ _ _ _ _ H1).
  cbn [files procs] in F1, P1.
  assert (run_ffprobe E None w1
          = (Exit 1,
             add_out w1
               [Shown "[INFO] Running ffprobe to extract chapter information for" PNone;
                Failed "[ERROR] Failed to run ffprobe:" TypeError])) as H2.
  { unfold run_ffprobe, try_except, bind, print, lift, exit, add_out.
    cbn [get_abs_path_arg arg files dirs procs stdout].
    rewrite <- app_assoc. reflexivity. }
  rewrite (bind_exit _ _ _ _ _ H2).
  eexists. split; [reflexivity|]. cbn [add_out files procs stdout].
  split; [exact F1|]. split; [exact P1|].
  replace (stdout w1 ++
           [Shown "[INFO] Running ffprobe to extract chapter information for" PNone;
            Failed "[ERROR] Failed to run ffprobe:" TypeError])
    with ((stdout w1 ++
           [Shown "[INFO] Running ffprobe to extract chapter information for" PNone])
          ++ [Failed "[ERROR] Failed to run ffprobe:" TypeError])
    by (rewrite <- app_assoc; reflexivity).
  apply last_last.
Qed.

Lemma dispatch_without_input_file_exits_witness :
  exists w',
    main (Demo.dispatcher Demo.two_chapters (fun _ => true))
         None "tune=0" "1" "16" false false Demo.empty_world
    = (Exit 1, w')
    /\ files w' = [] /\ procs w' = [].
Proof.
  destruct (dispatch_without_input_file_exits
              (Demo.dispatcher Demo.two_chapters (fun _ => true))
              "tune=0" "1" "16" Demo.empty_world) as (w' & H & F & P & _).
  - intros dir [<-|[<-|[]]]; right; reflexivity.
  - exists w'. repeat split; assumption.
Defined.
